(** * Vibecafe backend: the recommendation subsystem

    A shallow embedding of [recommendations.ts], of the recommendation and
    cafe routes of [routes.ts] and of the proximity query of [storage.ts],
    with the properties the specification states about them.

    Conventions.
    - A JavaScript [number] that only ever holds small integers (ids, scores,
      counts) is a [Z].
    - A TypeScript string is a [string]; [===] on strings is [String.eqb].
    - An optional value ([T | undefined], [T | null]) is an [option].
    - [Array.prototype.sort] is the stable sort ECMAScript 2019 requires.
    - A JavaScript [number] that holds a coordinate or a radius, and an SQL
      [double precision] value, is a [float] (IEEE 754 binary64).
    - The operators and functions of the SQL expression of the proximity
      query are the database's: they are parameters, and any of them may
      raise an error, which aborts the query. *)

From Stdlib Require Import ZArith List String Bool Lia.
From Stdlib Require Import Permutation Sorted.
From Stdlib Require Import Floats.
Import ListNotations.

Open Scope Z_scope.

(** ** Data model ([shared/schema]) *)

(** The quiz response of a user.  [ambience] is read through [?.] in the
    scorer, so it may be absent. *)
Module QuizResponse.
Record t : Type := mk {
  budget : string;
  ambience : option (list string);
  mood : string;
  petFriendly : bool
}.
End QuizResponse.

(** A row of the [cafes] table, with the columns the subsystem reads (the
    column list is the one [getUserSavedCafes] selects).  Coordinates are
    degrees. *)
Module Cafe.
Record t : Type := mk {
  id : Z;
  name : string;
  latitude : float;
  longitude : float;
  budgetRange : string;
  ambience : string;
  noiseLevel : string;
  lighting : string;
  seatingStyle : string;
  plugPoints : bool;
  petFriendly : bool;
  instaWorthiness : string;
  workFriendly : bool;
  wifiQuality : string
}.
End Cafe.

Module User.
Record t : Type := mk {
  id : Z;
  email : string;
  quizResponses : option QuizResponse.t
}.
End User.

Module UserInteraction.
Record t : Type := mk {
  userId : Z;
  cafeId : Z;
  interactionType : string
}.
End UserInteraction.

(** ** JavaScript array helpers *)

(** [arr?.includes(x)] used as a condition: an absent array is falsy. *)
Definition includes (arr : option (list string)) (x : string) : bool :=
  match arr with
  | Some l => existsb (String.eqb x) l
  | None => false
  end.

(** [arr.slice(0, n)] for a literal [n >= 0]. *)
Definition slice0 {A : Type} (n : nat) (arr : list A) : list A := firstn n arr.

Section JsSort.
Context {A : Type}.
Variable compareFn : A -> A -> Z.

(** [x] goes in front of the first [y] with [compareFn x y <= 0], that is
    the first element it need not follow.  [x] is always an element that
    came earlier in the array than all of [l], so on a tie it stays in
    front. *)
Fixpoint sort_insert (x : A) (l : list A) : list A :=
  match l with
  | [] => [x]
  | y :: t => if compareFn x y <=? 0 then x :: y :: t
              else y :: sort_insert x t
  end.

(** [arr.sort(compareFn)]: the stable sort by [compareFn]. *)
Definition js_sort (arr : list A) : list A :=
  fold_right sort_insert [] arr.
End JsSort.

(** ** The fallback scorer *)

Definition str_eq (a b : string) : bool := String.eqb a b.

(** [RecombeeRecommendationEngine.calculateFallbackScore]. *)
Definition calculateFallbackScore
    (quizResponse : QuizResponse.t) (cafe : Cafe.t) : Z :=
  let score := 0 in
  (* Budget match *)
  let score :=
    if str_eq (QuizResponse.budget quizResponse) (Cafe.budgetRange cafe)
    then score + 3 else score in
  (* Ambience preferences *)
  let score :=
    if includes (QuizResponse.ambience quizResponse) (Cafe.ambience cafe)
    then score + 4 else score in
  (* Mood-based scoring *)
  let score :=
    if str_eq (QuizResponse.mood quizResponse) "study" then
      let score := if str_eq (Cafe.noiseLevel cafe) "Quiet"
                   then score + 3 else score in
      let score := if Cafe.workFriendly cafe then score + 2 else score in
      let score := if Cafe.plugPoints cafe then score + 1 else score in
      score
    else if str_eq (QuizResponse.mood quizResponse) "work" then
      let score := if Cafe.workFriendly cafe then score + 4 else score in
      let score := if str_eq (Cafe.wifiQuality cafe) "Excellent"
                   then score + 2 else score in
      let score := if Cafe.plugPoints cafe then score + 2 else score in
      score
    else if str_eq (QuizResponse.mood quizResponse) "date" then
      let score := if str_eq (Cafe.ambience cafe) "Aesthetic"
                   then score + 3 else score in
      let score := if str_eq (Cafe.lighting cafe) "Moody"
                   then score + 2 else score in
      let score := if str_eq (Cafe.seatingStyle cafe) "Booths"
                   then score + 1 else score in
      score
    else if str_eq (QuizResponse.mood quizResponse) "hangout" then
      let score := if str_eq (Cafe.noiseLevel cafe) "Social"
                   then score + 2 else score in
      let score := if str_eq (Cafe.ambience cafe) "Cozy"
                   then score + 2 else score in
      score
    else score in
  (* Additional Gen-Z preferences *)
  let score :=
    if str_eq (Cafe.instaWorthiness cafe) "High" then score + 2 else score in
  let score :=
    if Cafe.petFriendly cafe && QuizResponse.petFriendly quizResponse
    then score + 1 else score in
  score.

(** ** The rule table of the specification (section 4.2)

    Written from the specification's table, one entry per row, to be compared
    with [calculateFallbackScore]. *)

Record Rule : Type := mkRule {
  rule_applies : QuizResponse.t -> Cafe.t -> bool;
  rule_points : Z
}.

Definition mood_is (m : string) (p : QuizResponse.t) : bool :=
  str_eq (QuizResponse.mood p) m.

Definition rule_table : list Rule := [
  mkRule (fun p v => str_eq (QuizResponse.budget p) (Cafe.budgetRange v)) 3;
  mkRule (fun p v => includes (QuizResponse.ambience p) (Cafe.ambience v)) 4;
  mkRule (fun p v => mood_is "study" p && str_eq (Cafe.noiseLevel v) "Quiet") 3;
  mkRule (fun p v => mood_is "study" p && Cafe.workFriendly v) 2;
  mkRule (fun p v => mood_is "study" p && Cafe.plugPoints v) 1;
  mkRule (fun p v => mood_is "work" p && Cafe.workFriendly v) 4;
  mkRule (fun p v => mood_is "work" p && str_eq (Cafe.wifiQuality v) "Excellent") 2;
  mkRule (fun p v => mood_is "work" p && Cafe.plugPoints v) 2;
  mkRule (fun p v => mood_is "date" p && str_eq (Cafe.ambience v) "Aesthetic") 3;
  mkRule (fun p v => mood_is "date" p && str_eq (Cafe.lighting v) "Moody") 2;
  mkRule (fun p v => mood_is "date" p && str_eq (Cafe.seatingStyle v) "Booths") 1;
  mkRule (fun p v => mood_is "hangout" p && str_eq (Cafe.noiseLevel v) "Social") 2;
  mkRule (fun p v => mood_is "hangout" p && str_eq (Cafe.ambience v) "Cozy") 2;
  mkRule (fun p v => str_eq (Cafe.instaWorthiness v) "High") 2;
  mkRule (fun p v => Cafe.petFriendly v && QuizResponse.petFriendly p) 1
].

(** The points of the rules that apply, added up. *)
Definition table_score (rules : list Rule)
    (p : QuizResponse.t) (v : Cafe.t) : Z :=
  fold_right
    (fun r acc => if rule_applies r p v then rule_points r + acc else acc)
    0 rules.

(** The four rows that do not look at the mood. *)
Definition mood_independent_rules : list Rule := [
  mkRule (fun p v => str_eq (QuizResponse.budget p) (Cafe.budgetRange v)) 3;
  mkRule (fun p v => includes (QuizResponse.ambience p) (Cafe.ambience v)) 4;
  mkRule (fun p v => str_eq (Cafe.instaWorthiness v) "High") 2;
  mkRule (fun p v => Cafe.petFriendly v && QuizResponse.petFriendly p) 1
].

(** Scenario A of the specification; the fields the scenario leaves open are
    arguments. *)
Definition profileA : QuizResponse.t :=
  QuizResponse.mk "₹₹" (Some ["Cozy"%string]) "study" false.

Definition venueA (id : Z) (name : string) (lat lng : float)
    (lighting seating wifi : string) : Cafe.t :=
  Cafe.mk id name lat lng "₹₹" "Cozy" "Quiet" lighting seating
          true false "Low" true wifi.

(** ** The engines ([recommendations.ts]) *)

(** What [console.log] receives. *)
Inductive LogEntry : Type :=
| LogMessage (msg : string)
| LogUserAdded (userId : Z)
| LogCafeAdded (cafeName : string)
| LogInteraction (interactionType : string) (cafeId : Z).

(** The [{ id, score }] objects built during ranking. *)
Module ScoredCafe.
Record t : Type := mk { id : Z; score : Z }.
End ScoredCafe.

(** [count: number = 10]: an omitted argument takes the default. *)
Definition default_count (count : option Z) : Z :=
  match count with Some n => n | None => 10 end.

(** The [RecommendationEngine] interface.  An engine object is a state; the
    ingestion methods return the next state, the queries read it. *)
Record RecommendationEngine : Type := mkEngine {
  engine_state : Type;
  engine_new : engine_state;
  initialize : engine_state -> engine_state;
  addUser : User.t -> engine_state -> engine_state;
  addCafe : Cafe.t -> engine_state -> engine_state;
  addInteraction : UserInteraction.t -> engine_state -> engine_state;
  getRecommendations : engine_state -> Z -> option Z -> list Z;
  getFallbackRecommendations : QuizResponse.t -> list Cafe.t -> list Z
}.

Module Recombee.
Record state : Type := mkState {
  isInitialized : bool;
  console : list LogEntry
}.

Definition new : state := mkState false [].

Definition log (e : LogEntry) (s : state) : state :=
  mkState (isInitialized s) (console s ++ [e]).

Definition initialize (s : state) : state :=
  log (LogMessage "Smart recommendation engine initialized")
      (mkState true (console s)).

Definition addUser (user : User.t) (s : state) : state :=
  log (LogUserAdded (User.id user)) s.

Definition addCafe (cafe : Cafe.t) (s : state) : state :=
  log (LogCafeAdded (Cafe.name cafe)) s.

Definition addInteraction (interaction : UserInteraction.t) (s : state)
    : state :=
  log (LogInteraction (UserInteraction.interactionType interaction)
                      (UserInteraction.cafeId interaction)) s.

(** Use fallback recommendations for now. *)
Definition getRecommendations (s : state) (userId : Z) (count : option Z)
    : list Z :=
  let count := default_count count in
  [].

Definition scoredCafes (quizResponse : QuizResponse.t)
    (cafes : list Cafe.t) : list ScoredCafe.t :=
  map (fun cafe =>
         ScoredCafe.mk (Cafe.id cafe)
                       (calculateFallbackScore quizResponse cafe))
      cafes.

Definition getFallbackRecommendations (quizResponse : QuizResponse.t)
    (cafes : list Cafe.t) : list Z :=
  let scoredCafes := scoredCafes quizResponse cafes in
  map ScoredCafe.id
      (slice0 10
         (js_sort (fun a b => ScoredCafe.score b - ScoredCafe.score a)
                  scoredCafes)).

Definition engine : RecommendationEngine :=
  mkEngine state new initialize addUser addCafe addInteraction
           getRecommendations getFallbackRecommendations.
End Recombee.

Module Algolia.
Record state : Type := mkState { console : list LogEntry }.

Definition new : state := mkState [].

Definition initialize (s : state) : state :=
  mkState (console s ++ [LogMessage "Algolia recommendation engine initialized"]).

(** No-op for now. *)
Definition addUser (user : User.t) (s : state) : state := s.
Definition addCafe (cafe : Cafe.t) (s : state) : state := s.
Definition addInteraction (interaction : UserInteraction.t) (s : state)
    : state := s.

(** Return empty for fallback to rule-based. *)
Definition getRecommendations (s : state) (userId : Z) (count : option Z)
    : list Z :=
  let count := default_count count in
  [].

(** Simple rule-based recommendations. *)
Definition getFallbackRecommendations (quizResponse : QuizResponse.t)
    (cafes : list Cafe.t) : list Z :=
  map Cafe.id (slice0 5 cafes).

Definition engine : RecommendationEngine :=
  mkEngine state new initialize addUser addCafe addInteraction
           getRecommendations getFallbackRecommendations.
End Algolia.

(** A JavaScript string used as a condition: absent and empty are falsy. *)
Definition truthy (v : option string) : bool :=
  match v with
  | Some s => negb (String.eqb s "")
  | None => false
  end.

(** [createRecommendationEngine], from the two environment variables. *)
Definition createRecommendationEngine
    (recombeeDbId recombeePrivateToken : option string)
    : RecommendationEngine :=
  if truthy recombeeDbId && truthy recombeePrivateToken
  then Recombee.engine
  else Algolia.engine.

(** The calls a caller can make on an engine before it asks for
    recommendations. *)
Inductive EngineCall : Type :=
| CallInitialize
| CallAddUser (user : User.t)
| CallAddCafe (cafe : Cafe.t)
| CallAddInteraction (interaction : UserInteraction.t).

Definition apply_call (E : RecommendationEngine)
    (s : engine_state E) (c : EngineCall) : engine_state E :=
  match c with
  | CallInitialize => initialize E s
  | CallAddUser user => addUser E user s
  | CallAddCafe cafe => addCafe E cafe s
  | CallAddInteraction interaction => addInteraction E interaction s
  end.

Definition run_calls (E : RecommendationEngine)
    (calls : list EngineCall) : engine_state E :=
  fold_left (apply_call E) calls (engine_new E).

(** ** Storage ([storage.ts])

    The database is the list of rows of each table, in the order the
    database returns them; a [select ... where] keeps the rows that pass the
    condition, and fails when the database raises while it evaluates the
    condition on a row. *)

(** How a promise settles.  [InvalidArgument] and [NotReady] are the
    failure kinds the specification names; no code path of the storage
    raises either.  [DatabaseError] is a query the database aborted. *)
Inductive Failure : Type := InvalidArgument | NotReady | DatabaseError.

Inductive Promise (A : Type) : Type :=
| Resolved (value : A)
| Rejected (reason : Failure).
Arguments Resolved {A} value.
Arguments Rejected {A} reason.

(** The double-precision operators and functions of the database that the
    proximity query calls.  [None] is an error the database raises (an
    argument out of range, an overflow or underflow). *)
Record SqlMath : Type := mkSqlMath {
  sql_radians : float -> option float;
  sql_cos : float -> option float;
  sql_sin : float -> option float;
  sql_acos : float -> option float;
  sql_mul : float -> float -> option float;
  sql_add : float -> float -> option float;
  sql_sub : float -> float -> option float;
  sql_le : float -> float -> bool
}.

(** Evaluation goes on with the value, or stops at the error. *)
Definition andThen {A B : Type} (x : option A) (k : A -> option B)
    : option B :=
  match x with
  | Some v => k v
  | None => None
  end.

Notation "'let*' x ':=' e 'in' k" := (andThen e (fun x => k))
  (at level 10, x name, e at level 100, k at level 200).

(** A [select ... where] over the rows of a table: the rows for which the
    condition holds, unless the condition raises on some row. *)
Fixpoint selectWhere {A : Type} (condition : A -> option bool)
    (rows : list A) : option (list A) :=
  match rows with
  | [] => Some []
  | row :: rest =>
      let* keep := condition row in
      let* others := selectWhere condition rest in
      Some (if keep then row :: others else others)
  end.

Module Storage.
Record t : Type := mk {
  users : list User.t;
  cafes : list Cafe.t
}.

Definition getUser (db : t) (id : Z) : option User.t :=
  find (fun u => User.id u =? id) (users db).

Definition getAllCafes (db : t) : list Cafe.t := cafes db.

Definition getCafe (db : t) (id : Z) : option Cafe.t :=
  find (fun c => Cafe.id c =? id) (cafes db).

(** The argument of [acos] in the [where] clause of
    [getCafesNearLocation]. *)
Definition acosArgument (sql : SqlMath) (lat lng : float) (cafe : Cafe.t)
    : option float :=
  let* radLat := sql_radians sql lat in
  let* cosLat := sql_cos sql radLat in
  let* radCafeLat := sql_radians sql (Cafe.latitude cafe) in
  let* cosCafeLat := sql_cos sql radCafeLat in
  let* product := sql_mul sql cosLat cosCafeLat in
  let* radCafeLng := sql_radians sql (Cafe.longitude cafe) in
  let* radLng := sql_radians sql lng in
  let* deltaLng := sql_sub sql radCafeLng radLng in
  let* cosDelta := sql_cos sql deltaLng in
  let* cosines := sql_mul sql product cosDelta in
  let* radLat := sql_radians sql lat in
  let* sinLat := sql_sin sql radLat in
  let* radCafeLat := sql_radians sql (Cafe.latitude cafe) in
  let* sinCafeLat := sql_sin sql radCafeLat in
  let* sines := sql_mul sql sinLat sinCafeLat in
  sql_add sql cosines sines.

(** The left-hand side of the [where] clause: [6371 * acos(...)]. *)
Definition distanceKm (sql : SqlMath) (lat lng : float) (cafe : Cafe.t)
    : option float :=
  let* argument := acosArgument sql lat lng cafe in
  let* angle := sql_acos sql argument in
  sql_mul sql 6371%float angle.

(** The [where] clause: [6371 * acos(...) <= radiusKm]. *)
Definition withinRadius (sql : SqlMath) (lat lng radiusKm : float)
    (cafe : Cafe.t) : option bool :=
  let* distance := distanceKm sql lat lng cafe in
  Some (sql_le sql distance radiusKm).

Definition getCafesNearLocation (sql : SqlMath) (db : t)
    (lat lng radiusKm : float) : Promise (list Cafe.t) :=
  match selectWhere (withinRadius sql lat lng radiusKm) (cafes db) with
  | Some rows => Resolved rows
  | None => Rejected DatabaseError
  end.
End Storage.

(** ** The routes ([routes.ts]) *)

Inductive Response (A : Type) : Type :=
| Json (body : A)
| Status (code : Z) (error : string).
Arguments Json {A} body.
Arguments Status {A} code error.

(** [parseInt(req.query.count as string) || 10]: [None] is a missing or
    unreadable parameter ([NaN]); [NaN] and [0] are falsy. *)
Definition parseCount (count : option Z) : Z :=
  match count with
  | Some n => if n =? 0 then 10 else n
  | None => 10
  end.

Section Routes.
Variable E : RecommendationEngine.
Variable recommendationEngine : engine_state E.
Variable storage : Storage.t.

(** Lines 170 to 180 of the recommendation route: the identifiers, before
    they are resolved to cafes. *)
Definition recommendedCafeIds (user : User.t) (userId count : Z) : list Z :=
  (* Get AI recommendations *)
  let recommendedCafeIds :=
    getRecommendations E recommendationEngine userId (Some count) in
  (* If no AI recommendations, use fallback *)
  match recommendedCafeIds, User.quizResponses user with
  | [], Some quizResponses =>
      let allCafes := Storage.getAllCafes storage in
      getFallbackRecommendations E quizResponses allCafes
  | _, _ => recommendedCafeIds
  end.

(** [GET /api/users/:id/recommendations], up to the identifiers. *)
Definition getRecommendationIds (userId : Z) (count : option Z)
    : Response (list Z) :=
  let count := parseCount count in
  match Storage.getUser storage userId with
  | None => Status 404 "User not found"
  | Some user => Json (recommendedCafeIds user userId count)
  end.

(** Get full cafe details. *)
Definition resolveCafes (ids : list Z) : list Cafe.t :=
  flat_map (fun cafeId =>
              match Storage.getCafe storage cafeId with
              | Some cafe => [cafe]
              | None => []
              end) ids.

(** [GET /api/users/:id/recommendations]. *)
Definition recommendationsRoute (userId : Z) (count : option Z)
    : Response (list Cafe.t) :=
  match getRecommendationIds userId count with
  | Json ids => Json (resolveCafes ids)
  | Status code error => Status code error
  end.

End Routes.

(** [GET /api/cafes]; a query parameter is [None] when it is missing, and
    else what [parseFloat] made of it. *)
Definition cafesRoute (sql : SqlMath) (storage : Storage.t)
    (lat lng radius : option float) : Response (list Cafe.t) :=
  match lat, lng, radius with
  | Some lat, Some lng, Some radius =>
      match Storage.getCafesNearLocation sql storage lat lng radius with
      | Resolved cafes => Json cafes
      | Rejected _ => Status 500 "Failed to fetch cafes"
      end
  | _, _, _ => Json (Storage.getAllCafes storage)
  end.

(** ** The exposed operation as the specification words it (section 6)

    Personalized ids if non-empty, else fallback ids from the stored profile
    and the full venue set, else nothing. *)
Definition spec_getRecommendations
    (personalized : list Z) (profile : option QuizResponse.t)
    (fallback : QuizResponse.t -> list Z) : list Z :=
  if negb (Nat.eqb (List.length personalized) 0) then personalized
  else match profile with
       | Some p => fallback p
       | None => []
       end.

(** The outcome of the four tests of the mood [switch]. *)
Definition mood_flags (m : string) : bool * bool * bool * bool :=
  (String.eqb m "study", String.eqb m "work",
   String.eqb m "date", String.eqb m "hangout").

(** ** Order predicates *)

(** The comparator of the ranking, [(a, b) => key(b) - key(a)]. *)
Definition byKeyDesc {A : Type} (key : A -> Z) (a b : A) : Z := key b - key a.

(** Non-increasing by [key]. *)
Definition descending {A : Type} (key : A -> Z) : list A -> Prop :=
  StronglySorted (fun a b => key b <= key a).

(** ** Sample data *)

Definition plainCafe (id : Z) (insta : string) : Cafe.t :=
  Cafe.mk id "cafe" 0%float 0%float "₹" "Rustic" "Lively" "Bright" "Tables"
          false false insta false "Average".

Definition sampleCafes : list Cafe.t :=
  [plainCafe 1 "Low"; plainCafe 2 "High"; plainCafe 3 "Low"; plainCafe 4 "High"].

Definition sampleUser : User.t := User.mk 7 "a@b.c" (Some profileA).

Definition sampleStorage : Storage.t := Storage.mk [sampleUser] sampleCafes.

(** ** Saved cafes and lookups ([storage.ts])

    A table is the list of its rows in insertion order.  Constraints that
    [shared/schema] may declare on a table are not part of these functions. *)

(** A row of [userSavedCafes], with the columns the code writes and reads. *)
Module UserSavedCafe.
Record t : Type := mk { userId : Z; cafeId : Z }.
End UserSavedCafe.

Module SavedCafes.
(** [db.insert(userSavedCafes).values({ userId, cafeId }).returning()]: the
    table after the insert, and the inserted row. *)
Definition saveCafe (table : list UserSavedCafe.t) (userId cafeId : Z)
    : list UserSavedCafe.t * UserSavedCafe.t :=
  let savedCafe := UserSavedCafe.mk userId cafeId in
  (table ++ [savedCafe], savedCafe).

(** [db.delete(userSavedCafes).where(and(eq(userId), eq(cafeId)))]. *)
Definition unsaveCafe (table : list UserSavedCafe.t) (userId cafeId : Z)
    : list UserSavedCafe.t :=
  filter (fun row => negb ((UserSavedCafe.userId row =? userId) &&
                           (UserSavedCafe.cafeId row =? cafeId)))
         table.

(** The rows of [from(userSavedCafes).innerJoin(cafes,
    eq(userSavedCafes.cafeId, cafes.id))], in one of the orders the database
    may produce them. *)
Definition innerJoin (table : list UserSavedCafe.t) (cafes : list Cafe.t)
    : list (UserSavedCafe.t * Cafe.t) :=
  flat_map (fun row =>
              map (pair row)
                  (filter (fun cafe => UserSavedCafe.cafeId row =? Cafe.id cafe)
                          cafes))
           table.

(** The cafe columns of the joined rows of the user, in that order. *)
Definition savedCafeRows (table : list UserSavedCafe.t)
    (cafes : list Cafe.t) (userId : Z) : list Cafe.t :=
  map snd
      (filter (fun joined => UserSavedCafe.userId (fst joined) =? userId)
              (innerJoin table cafes)).

(** [getUserSavedCafes]: the query has no [orderBy], so the database may
    return the rows in any order; [result] is an answer of the query when it
    holds the cafes of [savedCafeRows], each as often, in some order. *)
Definition getUserSavedCafes (table : list UserSavedCafe.t)
    (cafes : list Cafe.t) (userId : Z) (result : list Cafe.t) : Prop :=
  Permutation (savedCafeRows table cafes userId) result.
End SavedCafes.

(** [DatabaseStorage.getUserByEmail]. *)
Definition getUserByEmail (db : Storage.t) (email : string) : option User.t :=
  find (fun u => String.eqb (User.email u) email) (Storage.users db).

(** ** More routes ([routes.ts]) *)

Section LookupRoutes.
Variable storage : Storage.t.

(** [GET /api/users/:id]. *)
Definition userRoute (id : Z) : Response User.t :=
  match Storage.getUser storage id with
  | None => Status 404 "User not found"
  | Some user => Json user
  end.

(** [GET /api/cafes/:id]. *)
Definition cafeRoute (id : Z) : Response Cafe.t :=
  match Storage.getCafe storage id with
  | None => Status 404 "Cafe not found"
  | Some cafe => Json cafe
  end.
End LookupRoutes.

(** The start-up block of [routes.ts], as far as the engine goes:
    [initialize], then [addCafe] for every stored cafe in turn. *)
Definition startup (E : RecommendationEngine) (storage : Storage.t)
    : engine_state E :=
  let s := initialize E (engine_new E) in
  let allCafes := Storage.getAllCafes storage in
  fold_left (fun s cafe => addCafe E cafe s) allCafes s.

(** How often a kind of call occurs in a list of calls. *)
Definition isInitializeCall (c : EngineCall) : bool :=
  match c with CallInitialize => true | _ => false end.

(** What a call makes the personalized variant print. *)
Definition logged (c : EngineCall) : LogEntry :=
  match c with
  | CallInitialize => LogMessage "Smart recommendation engine initialized"
  | CallAddUser user => LogUserAdded (User.id user)
  | CallAddCafe cafe => LogCafeAdded (Cafe.name cafe)
  | CallAddInteraction interaction =>
      LogInteraction (UserInteraction.interactionType interaction)
                     (UserInteraction.cafeId interaction)
  end.

(** A quiz response with another ambience list, or another pet preference. *)
Definition withAmbience (q : QuizResponse.t) (a : option (list string))
    : QuizResponse.t :=
  QuizResponse.mk (QuizResponse.budget q) a
                  (QuizResponse.mood q) (QuizResponse.petFriendly q).

Definition withPetFriendly (q : QuizResponse.t) (pet : bool)
    : QuizResponse.t :=
  QuizResponse.mk (QuizResponse.budget q) (QuizResponse.ambience q)
                  (QuizResponse.mood q) pet.

(** ** A sample database arithmetic

    What the database's functions return at the arguments the examples
    below need, as an IEEE 754 library computes them; at any other argument
    this sample raises.  [acos] raises outside [-1, 1], as PostgreSQL's
    does. *)

(** [pi / 180] as a double. *)
Definition radiansPerDegree : float := 0x1.1df46a2529d39p-6%float.

(** The latitude and longitude 12.9016 and 77.5946 as doubles, and the
    latitude in radians. *)
Definition sampleLat : float := 0x1.9cd9e83e425afp+3%float.
Definition sampleLng : float := 0x1.3660ded288ce7p+6%float.
Definition sampleRadLat : float := 0x1.cd28c26cd452fp-3%float.

Definition sampleSql : SqlMath :=
  mkSqlMath
    (fun x => Some (x * radiansPerDegree)%float)
    (fun x => if (x =? 0)%float then Some 1%float
              else if (x =? sampleRadLat)%float
                   then Some 0x1.f3131501432c0p-1%float
                   else None)
    (fun x => if (x =? 0)%float then Some 0%float
              else if (x =? sampleRadLat)%float
                   then Some 0x1.c945a0cdea986p-3%float
                   else None)
    (fun x => if (x <? -1)%float || (1 <? x)%float then None
              else if (x =? 1)%float then Some 0%float else None)
    (fun a b => Some (a * b)%float)
    (fun a b => Some (a + b)%float)
    (fun a b => Some (a - b)%float)
    PrimFloat.leb.

(** A cafe at the sample coordinates. *)
Definition cafeAtSample : Cafe.t :=
  Cafe.mk 5 "Filter Kaapi" sampleLat sampleLng "₹" "Cozy" "Quiet" "Bright"
          "Tables" true false "Low" true "Good".

(** What a database guarantees of [acos]: its value is never negative, so no
    distance [6371 * acos(...)] is found at or below a negative number. *)
Definition distances_not_negative (sql : SqlMath) : Prop :=
  forall x angle distance r,
    sql_acos sql x = Some angle ->
    sql_mul sql 6371%float angle = Some distance ->
    (r <? 0)%float = true ->
    sql_le sql distance r = false.

(** [acos] raises above 1. *)
Definition acos_raises_above_one (sql : SqlMath) : Prop :=
  forall x, (1 <? x)%float = true -> sql_acos sql x = None.

(** * Properties *)

(** ** The stable sort *)

Section JsSortFacts.
Context {A : Type}.
Variable key : A -> Z.

Local Abbreviation cmp := (byKeyDesc key).
Local Abbreviation desc := (descending key).

Lemma sort_insert_perm (x : A) (l : list A) :
  Permutation (sort_insert cmp x l) (x :: l).
Proof.
  induction l as [|y t IH]; simpl.
  - apply Permutation_refl.
  - destruct (cmp x y <=? 0).
    + apply Permutation_refl.
    + apply perm_trans with (y :: x :: t).
      * apply perm_skip. exact IH.
      * apply perm_swap.
Qed.

Lemma js_sort_perm (l : list A) : Permutation (js_sort cmp l) l.
Proof.
  induction l as [|x t IH]; simpl.
  - constructor.
  - eapply perm_trans.
    + apply sort_insert_perm.
    + apply perm_skip. exact IH.
Qed.

Lemma js_sort_length (l : list A) :
  List.length (js_sort cmp l) = List.length l.
Proof. apply Permutation_length, js_sort_perm. Qed.

Lemma sort_insert_descending (x : A) (l : list A) :
  desc l -> desc (sort_insert cmp x l).
Proof.
  unfold descending.
  induction l as [|y t IH]; simpl; intros Hs.
  - constructor; constructor.
  - inversion Hs as [|? ? Ht Hy]; subst.
    destruct (Z.leb_spec (cmp x y) 0) as [Hle|Hgt]; unfold byKeyDesc in *.
    + constructor; [exact Hs|].
      constructor; [lia|].
      eapply Forall_impl; [|exact Hy].
      simpl. intros a Ha. lia.
    + constructor; [apply IH; exact Ht|].
      eapply Permutation_Forall.
      * apply Permutation_sym, sort_insert_perm.
      * constructor; [lia|exact Hy].
Qed.

Lemma js_sort_descending (l : list A) : desc (js_sort cmp l).
Proof.
  induction l as [|x t IH]; simpl.
  - constructor.
  - apply sort_insert_descending, IH.
Qed.

(** Stability: the elements of one key keep their order. *)
Lemma sort_insert_stable (k : Z) (x : A) (l : list A) :
  filter (fun a => key a =? k) (sort_insert cmp x l)
  = filter (fun a => key a =? k) (x :: l).
Proof.
  induction l as [|y t IH]; simpl; [reflexivity|].
  destruct (Z.leb_spec (cmp x y) 0) as [Hle|Hgt]; [reflexivity|].
  unfold byKeyDesc in Hgt. simpl in *. rewrite IH.
  destruct (Z.eqb_spec (key x) k), (Z.eqb_spec (key y) k);
    try reflexivity; lia.
Qed.

Lemma js_sort_stable (k : Z) (l : list A) :
  filter (fun a => key a =? k) (js_sort cmp l)
  = filter (fun a => key a =? k) l.
Proof.
  induction l as [|x t IH]; simpl; [reflexivity|].
  rewrite sort_insert_stable. simpl. rewrite IH. reflexivity.
Qed.

(** An array already in descending order is left as it is. *)
Lemma js_sort_sorted (l : list A) :
  desc l -> js_sort cmp l = l.
Proof.
  unfold descending.
  induction l as [|x t IH]; simpl; intros Hs; [reflexivity|].
  inversion Hs as [|? ? Ht Hx]; subst.
  rewrite (IH Ht).
  destruct t as [|y t']; [reflexivity|]. simpl.
  inversion Hx; subst.
  destruct (Z.leb_spec (cmp x y) 0) as [_|Hgt]; [reflexivity|].
  unfold byKeyDesc in Hgt. lia.
Qed.
End JsSortFacts.

(** Sorting the projected objects is projecting the sorted ones. *)
Lemma js_sort_map {A B : Type} (f : A -> B) (cmp : B -> B -> Z) (l : list A) :
  js_sort cmp (map f l) = map f (js_sort (fun a b => cmp (f a) (f b)) l).
Proof.
  induction l as [|x t IH]; simpl; [reflexivity|].
  rewrite IH. generalize (js_sort (fun a b => cmp (f a) (f b)) t) as s.
  induction s as [|y s IHs]; simpl; [reflexivity|].
  destruct (cmp (f x) (f y) <=? 0); simpl; [reflexivity|].
  rewrite IHs. reflexivity.
Qed.

Lemma firstn_incl {A : Type} (n : nat) (l : list A) (x : A) :
  In x (firstn n l) -> In x l.
Proof.
  intros H. rewrite <- (firstn_skipn n l). apply in_or_app. left. exact H.
Qed.

Lemma firstn_NoDup {A : Type} (n : nat) (l : list A) :
  NoDup l -> NoDup (firstn n l).
Proof.
  intros H. rewrite <- (firstn_skipn n l) in H.
  exact (NoDup_app_remove_r _ _ H).
Qed.

Lemma filter_firstn_prefix {A : Type} (f : A -> bool) (n : nat) (l : list A) :
  exists rest, filter f l = filter f (firstn n l) ++ rest.
Proof.
  exists (filter f (skipn n l)).
  rewrite <- filter_app, firstn_skipn. reflexivity.
Qed.

(** ** The fallback scorer *)

(** A conditional increment is the addition of a conditional amount. *)
Lemma if_add_l (b : bool) (s k : Z) :
  (if b then s + k else s) = s + (if b then k else 0).
Proof. destruct b; lia. Qed.

Lemma if_points_bounds (b : bool) (k : Z) :
  0 <= k -> 0 <= (if b then k else 0) <= k.
Proof. destruct b; lia. Qed.

(** The table score is the sum, row by row, of the amounts of the rows. *)
Lemma table_score_cons (r : Rule) (rs : list Rule)
    (p : QuizResponse.t) (v : Cafe.t) :
  table_score (r :: rs) p v
  = (if rule_applies r p v then rule_points r else 0) + table_score rs p v.
Proof. unfold table_score. simpl. destruct (rule_applies r p v); lia. Qed.

Lemma table_score_nil (p : QuizResponse.t) (v : Cafe.t) :
  table_score [] p v = 0.
Proof. reflexivity. Qed.

(** A mood passes at most one of the four mood tests. *)
Lemma mood_tests (m : string) :
  mood_flags m = (true, false, false, false) \/
  mood_flags m = (false, true, false, false) \/
  mood_flags m = (false, false, true, false) \/
  mood_flags m = (false, false, false, true) \/
  mood_flags m = (false, false, false, false).
Proof.
  unfold mood_flags.
  destruct (String.eqb_spec m "study") as [->|];
    [left; reflexivity|right].
  destruct (String.eqb_spec m "work") as [->|];
    [left; reflexivity|right].
  destruct (String.eqb_spec m "date") as [->|];
    [left; reflexivity|right].
  destruct (String.eqb_spec m "hangout") as [->|];
    [left; reflexivity|right; reflexivity].
Qed.

(** Brings the scorer and a rule table to sums of conditional amounts, the
    mood tests left in place. *)
Ltac sum_form :=
  unfold rule_table, mood_independent_rules;
  rewrite ?table_score_cons, ?table_score_nil;
  cbv beta iota zeta delta
    [calculateFallbackScore rule_applies rule_points mood_is str_eq
     QuizResponse.budget QuizResponse.ambience QuizResponse.mood
     QuizResponse.petFriendly].

(** Decides the four mood tests from their joint outcome [H]. *)
Ltac decide_mood H :=
  let Hs := fresh "Hs" in
  let Hw := fresh "Hw" in
  let Hd := fresh "Hd" in
  let Hh := fresh "Hh" in
  unfold mood_flags in H; injection H as Hs Hw Hd Hh;
  rewrite ?Hs, ?Hw, ?Hd, ?Hh;
  cbn [andb]; cbv beta iota; rewrite ?if_add_l.

Lemma score_is_table_score (p : QuizResponse.t) (v : Cafe.t) :
  calculateFallbackScore p v = table_score rule_table p v.
Proof.
  destruct p as [budget amb mood pet]. sum_form.
  destruct (mood_tests mood) as [H|[H|[H|[H|H]]]]; decide_mood H; ring.
Qed.

Lemma score_without_mood (p : QuizResponse.t) (v : Cafe.t) :
  QuizResponse.mood p <> "study"%string ->
  QuizResponse.mood p <> "work"%string ->
  QuizResponse.mood p <> "date"%string ->
  QuizResponse.mood p <> "hangout"%string ->
  calculateFallbackScore p v = table_score mood_independent_rules p v.
Proof.
  destruct p as [budget amb mood pet]. cbn [QuizResponse.mood].
  intros Hs Hw Hd Hh.
  assert (H : mood_flags mood = (false, false, false, false)).
  { unfold mood_flags.
    rewrite (proj2 (String.eqb_neq _ _) Hs), (proj2 (String.eqb_neq _ _) Hw),
      (proj2 (String.eqb_neq _ _) Hd), (proj2 (String.eqb_neq _ _) Hh).
    reflexivity. }
  sum_form. decide_mood H. ring.
Qed.

(** Records the range of every conditional amount of the goal. *)
Ltac bound_amounts :=
  repeat match goal with
         | |- context [if ?b then ?k else 0] =>
             let Hb := fresh "Hb" in
             let x := fresh "x" in
             pose proof (if_points_bounds b k ltac:(lia)) as Hb;
             set (x := if b then k else 0) in *; clearbody x
         end.

Lemma score_bounds (p : QuizResponse.t) (v : Cafe.t) :
  0 <= calculateFallbackScore p v <= 18.
Proof.
  destruct p as [budget amb mood pet]. sum_form.
  destruct (mood_tests mood) as [H|[H|[H|[H|H]]]]; decide_mood H;
    bound_amounts; lia.
Qed.

(** ** The ranking *)

Lemma firstn_descending {A : Type} (key : A -> Z) (n : nat) (l : list A) :
  descending key l -> descending key (firstn n l).
Proof.
  unfold descending. revert l.
  induction n as [|n IH]; intros l Hs; simpl; [constructor|].
  destruct l as [|x t]; [constructor|].
  inversion Hs as [|? ? Ht Hx]; subst.
  constructor; [apply IH; exact Ht|].
  apply Forall_forall. intros y Hy.
  apply firstn_incl in Hy.
  exact (proj1 (Forall_forall _ _) Hx y Hy).
Qed.

(** The ranking sorts the cafes themselves: building the [{ id, score }]
    objects first and reading their ids last changes nothing. *)
Lemma ranking_of_cafes (q : QuizResponse.t) (cafes : list Cafe.t) :
  Recombee.getFallbackRecommendations q cafes
  = map Cafe.id
      (firstn 10 (js_sort (byKeyDesc (calculateFallbackScore q)) cafes)).
Proof.
  unfold Recombee.getFallbackRecommendations, Recombee.scoredCafes, slice0.
  rewrite js_sort_map, firstn_map, map_map. reflexivity.
Qed.

Lemma ranking_length (q : QuizResponse.t) (cafes : list Cafe.t) :
  List.length (Recombee.getFallbackRecommendations q cafes)
  = Nat.min 10 (List.length cafes).
Proof.
  rewrite ranking_of_cafes, length_map, length_firstn, js_sort_length.
  reflexivity.
Qed.

Lemma ranking_ids_known (q : QuizResponse.t) (cafes : list Cafe.t) (i : Z) :
  In i (Recombee.getFallbackRecommendations q cafes) -> In i (map Cafe.id cafes).
Proof.
  rewrite ranking_of_cafes. intros H.
  apply in_map_iff in H. destruct H as [c [Hc Hin]].
  apply in_map_iff. exists c. split; [exact Hc|].
  apply firstn_incl in Hin.
  exact (Permutation_in _ (js_sort_perm _ _) Hin).
Qed.

Lemma ranking_NoDup (q : QuizResponse.t) (cafes : list Cafe.t) :
  NoDup (map Cafe.id cafes) ->
  NoDup (Recombee.getFallbackRecommendations q cafes).
Proof.
  intros H. rewrite ranking_of_cafes, <- firstn_map.
  apply firstn_NoDup.
  eapply Permutation_NoDup; [|exact H].
  apply Permutation_map, Permutation_sym, js_sort_perm.
Qed.

Lemma simple_ids_known (q : QuizResponse.t) (cafes : list Cafe.t) (i : Z) :
  In i (Algolia.getFallbackRecommendations q cafes) -> In i (map Cafe.id cafes).
Proof.
  unfold Algolia.getFallbackRecommendations, slice0. intros H.
  apply in_map_iff in H. destruct H as [c [Hc Hin]].
  apply in_map_iff. exists c. split; [exact Hc|].
  exact (firstn_incl _ _ _ Hin).
Qed.

Lemma simple_NoDup (q : QuizResponse.t) (cafes : list Cafe.t) :
  NoDup (map Cafe.id cafes) ->
  NoDup (Algolia.getFallbackRecommendations q cafes).
Proof.
  intros H. unfold Algolia.getFallbackRecommendations, slice0.
  rewrite <- firstn_map. apply firstn_NoDup, H.
Qed.

(** ** The proximity query *)


Lemma selectWhere_nothing {A : Type} (condition : A -> option bool)
    (rows kept : list A) :
  (forall row keep, condition row = Some keep -> keep = false) ->
  selectWhere condition rows = Some kept -> kept = [].
Proof.
  intros Hnone. revert kept.
  induction rows as [|row rest IH]; simpl; intros kept H.
  - injection H as <-. reflexivity.
  - unfold andThen in H.
    destruct (condition row) as [keep|] eqn:E; [|discriminate].
    destruct (selectWhere condition rest) as [others|]; [|discriminate].
    rewrite (Hnone row keep E) in H. injection H as <-.
    exact (IH others eq_refl).
Qed.

Lemma selectWhere_raises {A : Type} (condition : A -> option bool)
    (rows : list A) (row : A) :
  In row rows -> condition row = None -> selectWhere condition rows = None.
Proof.
  induction rows as [|r rest IH]; simpl; intros Hin Hnone; [contradiction|].
  unfold andThen. destruct Hin as [->|Hin].
  - rewrite Hnone. reflexivity.
  - rewrite (IH Hin Hnone). destruct (condition r); reflexivity.
Qed.



Lemma negative_radius_excludes (sql : SqlMath) (lat lng radiusKm : float)
    (cafe : Cafe.t) (keep : bool) :
  distances_not_negative sql ->
  (radiusKm <? 0)%float = true ->
  Storage.withinRadius sql lat lng radiusKm cafe = Some keep ->
  keep = false.
Proof.
  intros Hlaw Hneg.
  unfold Storage.withinRadius, Storage.distanceKm, andThen.
  destruct (Storage.acosArgument sql lat lng cafe) as [x|]; [|discriminate].
  destruct (sql_acos sql x) as [angle|] eqn:Ea; [|discriminate].
  destruct (sql_mul sql 6371%float angle) as [distance|] eqn:Em;
    [|discriminate].
  intros H. injection H as <-.
  exact (Hlaw x angle distance radiusKm Ea Em Hneg).
Qed.

Lemma acos_out_of_range_raises (sql : SqlMath) (lat lng radiusKm : float)
    (cafe : Cafe.t) (x : float) :
  acos_raises_above_one sql ->
  Storage.acosArgument sql lat lng cafe = Some x ->
  (1 <? x)%float = true ->
  Storage.withinRadius sql lat lng radiusKm cafe = None.
Proof.
  intros Hlaw Hx Hbig.
  unfold Storage.withinRadius, Storage.distanceKm, andThen.
  rewrite Hx, (Hlaw x Hbig). reflexivity.
Qed.

(** A number that is not below zero is not at or below a negative one. *)
Lemma float_not_le_negative (a r : float) :
  (a <? 0)%float = false -> (r <? 0)%float = true -> (a <=? r)%float = false.
Proof.
  rewrite !FloatAxioms.ltb_spec, FloatAxioms.leb_spec.
  destruct (Prim2SF a) as [sa| sa| |sa ma ea],
           (Prim2SF r) as [sr| sr| |sr mr er];
    cbn; try destruct sa; try destruct sr; cbn; congruence.
Qed.

Lemma sampleSql_distances_not_negative : distances_not_negative sampleSql.
Proof.
  intros x angle distance r Ha Hm Hr.
  cbn [sql_acos sql_mul sql_le sampleSql] in *.
  destruct ((x <? -1)%float || (1 <? x)%float); [discriminate|].
  destruct (x =? 1)%float; [|discriminate].
  injection Ha as <-. injection Hm as <-.
  apply float_not_le_negative; [reflexivity|exact Hr].
Defined.

Lemma sampleSql_acos_raises_above_one : acos_raises_above_one sampleSql.
Proof.
  intros x Hbig. cbn [sql_acos sampleSql].
  rewrite Hbig, orb_true_r. reflexivity.
Defined.

(** * The claims *)

(** C1.  The fallback score is the sum of the points of exactly the rows of
    the rule table that apply; for a mood outside study, work, date and
    hangout only the four mood-independent rows count; and the profile and
    venue of scenario A score 13. *)
Theorem fallback_score_is_rule_table_sum :
  (forall p v, calculateFallbackScore p v = table_score rule_table p v) /\
  (forall p v,
      QuizResponse.mood p <> "study"%string ->
      QuizResponse.mood p <> "work"%string ->
      QuizResponse.mood p <> "date"%string ->
      QuizResponse.mood p <> "hangout"%string ->
      calculateFallbackScore p v = table_score mood_independent_rules p v) /\
  (forall id name lat lng lighting seating wifi,
      calculateFallbackScore
        profileA (venueA id name lat lng lighting seating wifi) = 13).
Proof.
  split; [exact score_is_table_score|].
  split; [exact score_without_mood|].
  intros. reflexivity.
Qed.

Lemma fallback_score_is_rule_table_sum_witness :
  let p := QuizResponse.mk "₹₹" (Some ["Cozy"%string]) "brunch" true in
  let v := venueA 1 "Kettle" 0%float 0%float "Moody" "Booths" "Excellent" in
  QuizResponse.mood p <> "study"%string /\
  QuizResponse.mood p <> "work"%string /\
  QuizResponse.mood p <> "date"%string /\
  QuizResponse.mood p <> "hangout"%string /\
  calculateFallbackScore p v = table_score mood_independent_rules p v.
Proof.
  cbv zeta.
  split; [simpl; discriminate|].
  split; [simpl; discriminate|].
  split; [simpl; discriminate|].
  split; [simpl; discriminate|].
  apply (proj1 (proj2 fallback_score_is_rule_table_sum)); simpl; discriminate.
Defined.

(** C9.  The fallback score is a non-negative integer, and a bounded one: it
    lies between 0 and 18. *)
Theorem fallback_score_nonnegative (p : QuizResponse.t) (v : Cafe.t) :
  0 <= calculateFallbackScore p v <= 18.
Proof. apply score_bounds. Qed.

(** C2, as the code has it.  The rule-based variant does not score: its
    fallback returns the ids of the first five supplied cafes in input order.
    It returns what the personalized variant's fallback returns when at most
    five cafes are supplied and they already are in non-increasing score
    order. *)
Theorem simple_fallback_is_first_five (q : QuizResponse.t)
    (cafes : list Cafe.t) :
  Algolia.getFallbackRecommendations q cafes = map Cafe.id (firstn 5 cafes) /\
  ((List.length cafes <= 5)%nat ->
   descending (calculateFallbackScore q) cafes ->
   Algolia.getFallbackRecommendations q cafes
   = Recombee.getFallbackRecommendations q cafes).
Proof.
  split; [reflexivity|]. intros Hlen Hsorted.
  rewrite ranking_of_cafes, (js_sort_sorted _ _ Hsorted).
  unfold Algolia.getFallbackRecommendations, slice0.
  rewrite !firstn_all2 by lia. reflexivity.
Qed.

Lemma simple_fallback_is_first_five_witness :
  let cafes := [plainCafe 2 "High"; plainCafe 1 "Low"] in
  (List.length cafes <= 5)%nat /\
  descending (calculateFallbackScore profileA) cafes /\
  Algolia.getFallbackRecommendations profileA cafes
  = Recombee.getFallbackRecommendations profileA cafes.
Proof.
  cbv zeta.
  assert (Hlen : (List.length [plainCafe 2 "High"; plainCafe 1 "Low"] <= 5)%nat)
    by (simpl; lia).
  assert (Hs : descending (calculateFallbackScore profileA)
                 [plainCafe 2 "High"; plainCafe 1 "Low"]).
  { repeat constructor. vm_compute. discriminate. }
  split; [exact Hlen|]. split; [exact Hs|].
  exact (proj2 (simple_fallback_is_first_five profileA _) Hlen Hs).
Defined.

(** C2, as stated, fails: on four cafes of which the second and the fourth
    score higher, the personalized variant ranks them first and the
    rule-based variant keeps the input order. *)
Lemma fallbacks_differ :
  Recombee.getFallbackRecommendations profileA sampleCafes = [2; 4; 1; 3] /\
  Algolia.getFallbackRecommendations profileA sampleCafes = [1; 2; 3; 4] /\
  Algolia.getFallbackRecommendations profileA sampleCafes
  <> Recombee.getFallbackRecommendations profileA sampleCafes.
Proof.
  split; [vm_compute; reflexivity|].
  split; [vm_compute; reflexivity|].
  vm_compute. discriminate.
Qed.

(** C3, as the code has it.  The ranking takes no limit: it returns
    min(10, number of supplied cafes) ids whatever count the route received,
    and no id for an empty list of cafes. *)
Theorem ranking_length_is_min_ten :
  (forall q cafes,
      List.length (Recombee.getFallbackRecommendations q cafes)
      = Nat.min 10 (List.length cafes)) /\
  (forall s db user userId count count',
      recommendedCafeIds Recombee.engine s db user userId count
      = recommendedCafeIds Recombee.engine s db user userId count') /\
  (forall q, Recombee.getFallbackRecommendations q [] = []).
Proof.
  split; [exact ranking_length|].
  split; reflexivity.
Qed.

(** C3, as stated, fails: with a count of 3 and four cafes the route gets
    four ids, not min(3, 4); with a count of -1 it still gets four, not
    none. *)
Lemma ranking_ignores_limit :
  getRecommendationIds Recombee.engine Recombee.new sampleStorage 7 (Some 3)
  = Json [2; 4; 1; 3] /\
  getRecommendationIds Recombee.engine Recombee.new sampleStorage 7 (Some (-1))
  = Json [2; 4; 1; 3] /\
  List.length (Recombee.getFallbackRecommendations profileA sampleCafes)
  <> Nat.min 3 (List.length sampleCafes) /\
  Recombee.getFallbackRecommendations profileA sampleCafes <> [].
Proof.
  split; [vm_compute; reflexivity|].
  split; [vm_compute; reflexivity|].
  split; vm_compute; discriminate.
Qed.

(** C4.  The ids the ranking returns are those of a list of supplied cafes
    that is in non-increasing score order and in which, for every score, the
    cafes of that score are the first ones of the input with that score, in
    input order. *)
Theorem ranking_descending_and_stable (q : QuizResponse.t)
    (cafes : list Cafe.t) :
  exists ranked : list Cafe.t,
    Recombee.getFallbackRecommendations q cafes = map Cafe.id ranked /\
    incl ranked cafes /\
    descending (calculateFallbackScore q) ranked /\
    forall s, exists rest,
      filter (fun c => calculateFallbackScore q c =? s) cafes
      = filter (fun c => calculateFallbackScore q c =? s) ranked ++ rest.
Proof.
  exists (firstn 10 (js_sort (byKeyDesc (calculateFallbackScore q)) cafes)).
  split; [apply ranking_of_cafes|].
  split.
  - intros c Hc. apply firstn_incl in Hc.
    exact (Permutation_in _ (js_sort_perm _ _) Hc).
  - split; [apply firstn_descending, js_sort_descending|].
    intros s.
    rewrite <- (js_sort_stable (calculateFallbackScore q) s cafes).
    apply filter_firstn_prefix.
Qed.

(** C5, as the code has it.  For a user the storage knows, the route's ids
    are the engine's ids when there are any, else the fallback ids computed
    from the user's stored quiz response and all cafes, else none; for a
    user the storage does not know, the route answers 404 and asks no
    engine. *)
Theorem recommendation_ids_of_known_user (E : RecommendationEngine)
    (s : engine_state E) (db : Storage.t) (userId : Z) (count : option Z) :
  getRecommendationIds E s db userId count
  = match Storage.getUser db userId with
    | Some user =>
        Json (spec_getRecommendations
                (getRecommendations E s userId (Some (parseCount count)))
                (User.quizResponses user)
                (fun profile =>
                   getFallbackRecommendations E profile
                     (Storage.getAllCafes db)))
    | None => Status 404 "User not found"
    end.
Proof.
  unfold getRecommendationIds.
  destruct (Storage.getUser db userId) as [user|]; [|reflexivity].
  f_equal. unfold recommendedCafeIds, spec_getRecommendations.
  destruct (getRecommendations E s userId (Some (parseCount count)));
    destruct (User.quizResponses user); reflexivity.
Qed.

(** C5, as stated, fails: for an id no user has, nothing is personalized and
    no profile is stored, yet the route does not return the empty sequence;
    it answers 404. *)
Lemma unknown_user_is_not_found :
  let db := Storage.mk [] sampleCafes in
  Storage.getUser db 7 = None /\
  getRecommendations Algolia.engine Algolia.new 7 (Some 10) = [] /\
  getRecommendationIds Algolia.engine Algolia.new db 7 None
  = Status 404 "User not found" /\
  getRecommendationIds Algolia.engine Algolia.new db 7 None <> Json [].
Proof.
  cbv zeta. split; [reflexivity|]. split; [reflexivity|].
  split; [reflexivity|]. discriminate.
Qed.

(** C6 fails on the code.  When the argument of [acos] computed for a stored
    cafe exceeds 1, the database raises and the query fails, whatever the
    radius: the cafe is not included although it may lie within the radius.
    That happens for a cafe at the centre itself. *)
Theorem acos_out_of_range_fails (sql : SqlMath) (db : Storage.t)
    (lat lng radiusKm : float) (cafe : Cafe.t) (x : float) :
  acos_raises_above_one sql ->
  In cafe (Storage.cafes db) ->
  Storage.acosArgument sql lat lng cafe = Some x ->
  (1 <? x)%float = true ->
  Storage.getCafesNearLocation sql db lat lng radiusKm
  = Rejected DatabaseError /\
  cafesRoute sql db (Some lat) (Some lng) (Some radiusKm)
  = Status 500 "Failed to fetch cafes".
Proof.
  intros Hlaw Hin Hx Hbig.
  assert (H : Storage.getCafesNearLocation sql db lat lng radiusKm
              = Rejected DatabaseError).
  { unfold Storage.getCafesNearLocation.
    rewrite (selectWhere_raises _ _ cafe Hin
               (acos_out_of_range_raises sql lat lng radiusKm cafe x
                  Hlaw Hx Hbig)).
    reflexivity. }
  split; [exact H|]. unfold cafesRoute. rewrite H. reflexivity.
Qed.

Lemma acos_out_of_range_fails_witness :
  let db := Storage.mk [] [cafeAtSample] in
  acos_raises_above_one sampleSql /\
  In cafeAtSample (Storage.cafes db) /\
  Storage.acosArgument sampleSql sampleLat sampleLng cafeAtSample
  = Some 0x1.0000000000001p+0%float /\
  (1 <? 0x1.0000000000001p+0)%float = true /\
  Storage.getCafesNearLocation sampleSql db sampleLat sampleLng 5
  = Rejected DatabaseError /\
  cafesRoute sampleSql db (Some sampleLat) (Some sampleLng) (Some 5%float)
  = Status 500 "Failed to fetch cafes".
Proof.
  cbv zeta.
  assert (Hin : In cafeAtSample
                   (Storage.cafes (Storage.mk [] [cafeAtSample])))
    by (left; reflexivity).
  assert (Hx : Storage.acosArgument sampleSql sampleLat sampleLng cafeAtSample
               = Some 0x1.0000000000001p+0%float) by (vm_compute; reflexivity).
  assert (Hbig : (1 <? 0x1.0000000000001p+0)%float = true) by reflexivity.
  split; [exact sampleSql_acos_raises_above_one|].
  split; [exact Hin|]. split; [exact Hx|]. split; [exact Hbig|].
  exact (acos_out_of_range_fails sampleSql _ sampleLat sampleLng 5
           cafeAtSample _ sampleSql_acos_raises_above_one Hin Hx Hbig).
Defined.

(** C7, as the code has it.  A negative radius is not checked: the query
    never fails with InvalidArgument, it applies the same test as for any
    radius, and since no distance is negative a result it returns is the
    empty list. *)
Theorem negative_radius_returns_nothing (sql : SqlMath) (db : Storage.t)
    (lat lng radiusKm : float) :
  distances_not_negative sql ->
  (radiusKm <? 0)%float = true ->
  Storage.getCafesNearLocation sql db lat lng radiusKm
  <> Rejected InvalidArgument /\
  forall cafes,
    Storage.getCafesNearLocation sql db lat lng radiusKm = Resolved cafes ->
    cafes = [].
Proof.
  intros Hlaw Hneg. unfold Storage.getCafesNearLocation.
  destruct (selectWhere (Storage.withinRadius sql lat lng radiusKm)
                        (Storage.cafes db)) as [rows|] eqn:E.
  - split; [discriminate|]. intros cafes H. injection H as <-.
    apply (selectWhere_nothing _ _ _
             (fun cafe keep =>
                negative_radius_excludes sql lat lng radiusKm cafe keep
                  Hlaw Hneg) E).
  - split; discriminate.
Qed.

Lemma negative_radius_returns_nothing_witness :
  distances_not_negative sampleSql /\
  (-1 <? 0)%float = true /\
  Storage.getCafesNearLocation sampleSql sampleStorage 0 0 (-1)
  <> Rejected InvalidArgument /\
  forall cafes,
    Storage.getCafesNearLocation sampleSql sampleStorage 0 0 (-1)
    = Resolved cafes ->
    cafes = [].
Proof.
  assert (H : (-1 <? 0)%float = true) by reflexivity.
  split; [exact sampleSql_distances_not_negative|].
  split; [exact H|].
  exact (negative_radius_returns_nothing sampleSql sampleStorage 0 0 (-1)
           sampleSql_distances_not_negative H).
Defined.

(** C7, as stated, fails: with four cafes stored and a radius of -5 the
    query settles with the empty list; it is not rejected with
    InvalidArgument, and the route answers with that empty list. *)
Lemma negative_radius_not_rejected :
  Storage.getCafesNearLocation sampleSql sampleStorage 0 0 (-5)
  = Resolved [] /\
  Storage.getCafesNearLocation sampleSql sampleStorage 0 0 (-5)
  <> Rejected InvalidArgument /\
  cafesRoute sampleSql sampleStorage
    (Some 0%float) (Some 0%float) (Some (-5)%float) = Json [].
Proof.
  assert (H : Storage.getCafesNearLocation sampleSql sampleStorage 0 0 (-5)
              = Resolved []) by (vm_compute; reflexivity).
  split; [exact H|].
  split; [rewrite H; discriminate|].
  unfold cafesRoute. rewrite H. reflexivity.
Qed.

(** C8.  Whatever calls were made on the engine before, both variants answer
    a request for personalized recommendations with the empty list, and so
    does whichever engine the credentials select. *)
Theorem recommend_is_always_empty (calls : list EngineCall)
    (userId : Z) (count : option Z) :
  Algolia.getRecommendations (run_calls Algolia.engine calls) userId count
  = [] /\
  Recombee.getRecommendations (run_calls Recombee.engine calls) userId count
  = [] /\
  forall recombeeDbId recombeePrivateToken,
    let E := createRecommendationEngine recombeeDbId recombeePrivateToken in
    getRecommendations E (run_calls E calls) userId count = [].
Proof.
  split; [reflexivity|]. split; [reflexivity|].
  intros dbId token. unfold createRecommendationEngine.
  destruct (truthy dbId && truthy token); reflexivity.
Qed.

(** C10.  For both variants every id the fallback returns is the id of a
    supplied cafe, and when the supplied ids are pairwise distinct no id is
    returned twice. *)
Theorem fallback_ids_come_from_input (q : QuizResponse.t)
    (cafes : list Cafe.t) :
  (forall i, In i (Recombee.getFallbackRecommendations q cafes) ->
             In i (map Cafe.id cafes)) /\
  (forall i, In i (Algolia.getFallbackRecommendations q cafes) ->
             In i (map Cafe.id cafes)) /\
  (NoDup (map Cafe.id cafes) ->
   NoDup (Recombee.getFallbackRecommendations q cafes) /\
   NoDup (Algolia.getFallbackRecommendations q cafes)).
Proof.
  split; [intros i; apply ranking_ids_known|].
  split; [intros i; apply simple_ids_known|].
  intros H. split; [apply ranking_NoDup|apply simple_NoDup]; exact H.
Qed.

Lemma sampleCafes_ids_distinct : NoDup (map Cafe.id sampleCafes).
Proof.
  simpl. repeat (constructor; [simpl; intuition discriminate|]).
  constructor.
Defined.

Lemma fallback_ids_come_from_input_witness :
  NoDup (map Cafe.id sampleCafes) /\
  In 4 (Recombee.getFallbackRecommendations profileA sampleCafes) /\
  In 4 (map Cafe.id sampleCafes) /\
  NoDup (Recombee.getFallbackRecommendations profileA sampleCafes) /\
  NoDup (Algolia.getFallbackRecommendations profileA sampleCafes).
Proof.
  assert (Hin : In 4 (Recombee.getFallbackRecommendations profileA sampleCafes))
    by (vm_compute; auto).
  split; [exact sampleCafes_ids_distinct|].
  split; [exact Hin|].
  split.
  - exact (proj1 (fallback_ids_come_from_input profileA sampleCafes) 4 Hin).
  - exact (proj2 (proj2 (fallback_ids_come_from_input profileA sampleCafes))
             sampleCafes_ids_distinct).
Defined.

(** * Further properties of the code *)

(** ** The ranking *)

Lemma descending_app_dominates {A : Type} (key : A -> Z) (l1 l2 : list A) :
  descending key (l1 ++ l2) ->
  forall a b, In a l1 -> In b l2 -> key b <= key a.
Proof.
  unfold descending. induction l1 as [|x t IH]; simpl; intros Hs a b Ha Hb.
  - contradiction.
  - inversion Hs as [|? ? Ht Hx]; subst.
    destruct Ha as [<-|Ha].
    + apply (proj1 (Forall_forall _ _) Hx). apply in_or_app. right. exact Hb.
    + exact (IH Ht a b Ha Hb).
Qed.

(** Two lists in strictly decreasing key order with the same elements are the
    same list. *)
Lemma descending_distinct_unique {A : Type} (key : A -> Z) (l1 l2 : list A) :
  descending key l1 -> descending key l2 ->
  NoDup (map key l1) -> Permutation l1 l2 -> l1 = l2.
Proof.
  unfold descending. revert l2.
  induction l1 as [|x t1 IH]; intros l2 H1 H2 Hnd Hp.
  - apply Permutation_nil in Hp. symmetry. exact Hp.
  - destruct l2 as [|y t2].
    + apply Permutation_sym, Permutation_nil in Hp. discriminate.
    + inversion H1 as [|? ? Ht1 Hx]; subst.
      inversion H2 as [|? ? Ht2 Hy]; subst.
      inversion Hnd as [|? ? Hnotin Hnd']; subst.
      assert (Hxy : x = y).
      { assert (Hx2 : In x (y :: t2))
          by (apply (Permutation_in _ Hp); left; reflexivity).
        assert (Hy1 : In y (x :: t1))
          by (apply (Permutation_in _ (Permutation_sym Hp)); left; reflexivity).
        destruct Hx2 as [Hx2|Hx2]; [symmetry; exact Hx2|].
        destruct Hy1 as [Hy1|Hy1]; [exact Hy1|].
        pose proof (proj1 (Forall_forall _ _) Hy x Hx2) as Hle1.
        pose proof (proj1 (Forall_forall _ _) Hx y Hy1) as Hle2.
        cbv beta in Hle1, Hle2.
        exfalso. apply Hnotin.
        replace (key x) with (key y) by lia.
        apply in_map. exact Hy1. }
      subst y. f_equal.
      apply IH; try assumption.
      exact (Permutation_cons_inv Hp).
Qed.

Lemma js_sort_permutation_invariant {A : Type} (key : A -> Z)
    (l1 l2 : list A) :
  NoDup (map key l1) -> Permutation l1 l2 ->
  js_sort (byKeyDesc key) l1 = js_sort (byKeyDesc key) l2.
Proof.
  intros Hnd Hp.
  apply (descending_distinct_unique key).
  - apply js_sort_descending.
  - apply js_sort_descending.
  - eapply Permutation_NoDup; [|exact Hnd].
    apply Permutation_map, Permutation_sym, js_sort_perm.
  - eapply perm_trans; [apply js_sort_perm|].
    eapply perm_trans; [exact Hp|].
    apply Permutation_sym, js_sort_perm.
Qed.

(** X1.  The ranking keeps the best: the supplied cafes split into the ranked
    ones, whose ids are returned, and the rest, and no cafe of the rest
    scores higher than a ranked one. *)
Theorem ranking_keeps_the_best (q : QuizResponse.t) (cafes : list Cafe.t) :
  exists ranked rest : list Cafe.t,
    Recombee.getFallbackRecommendations q cafes = map Cafe.id ranked /\
    Permutation (ranked ++ rest) cafes /\
    forall a b, In a ranked -> In b rest ->
                calculateFallbackScore q b <= calculateFallbackScore q a.
Proof.
  exists (firstn 10 (js_sort (byKeyDesc (calculateFallbackScore q)) cafes)),
         (skipn 10 (js_sort (byKeyDesc (calculateFallbackScore q)) cafes)).
  split; [apply ranking_of_cafes|].
  split.
  - rewrite firstn_skipn. apply js_sort_perm.
  - apply descending_app_dominates.
    rewrite firstn_skipn. apply js_sort_descending.
Qed.

(** X2.  With at most ten cafes supplied, the ranking returns every supplied
    id, each as often as it was supplied. *)
Theorem ranking_of_few_is_permutation (q : QuizResponse.t)
    (cafes : list Cafe.t) :
  (List.length cafes <= 10)%nat ->
  Permutation (Recombee.getFallbackRecommendations q cafes)
              (map Cafe.id cafes).
Proof.
  intros Hlen. rewrite ranking_of_cafes.
  rewrite firstn_all2 by (rewrite js_sort_length; exact Hlen).
  apply Permutation_map, js_sort_perm.
Qed.

Lemma ranking_of_few_is_permutation_witness :
  (List.length sampleCafes <= 10)%nat /\
  Permutation (Recombee.getFallbackRecommendations profileA sampleCafes)
              (map Cafe.id sampleCafes).
Proof.
  assert (H : (List.length sampleCafes <= 10)%nat) by (simpl; lia).
  split; [exact H|].
  exact (ranking_of_few_is_permutation profileA sampleCafes H).
Defined.

(** X3.  Cafes supplied in non-increasing score order are not reordered: the
    ranking returns the ids of the first ten, in input order. *)
Theorem ranking_of_sorted_input (q : QuizResponse.t) (cafes : list Cafe.t) :
  descending (calculateFallbackScore q) cafes ->
  Recombee.getFallbackRecommendations q cafes = map Cafe.id (firstn 10 cafes).
Proof.
  intros Hs. rewrite ranking_of_cafes, (js_sort_sorted _ _ Hs). reflexivity.
Qed.

Lemma sampleCafes_reordered_descending :
  descending (calculateFallbackScore profileA)
    [plainCafe 2 "High"; plainCafe 4 "High"; plainCafe 1 "Low"].
Proof.
  repeat constructor; vm_compute; discriminate.
Defined.

Lemma ranking_of_sorted_input_witness :
  descending (calculateFallbackScore profileA)
    [plainCafe 2 "High"; plainCafe 4 "High"; plainCafe 1 "Low"] /\
  Recombee.getFallbackRecommendations profileA
    [plainCafe 2 "High"; plainCafe 4 "High"; plainCafe 1 "Low"]
  = map Cafe.id
      (firstn 10 [plainCafe 2 "High"; plainCafe 4 "High"; plainCafe 1 "Low"]).
Proof.
  split; [exact sampleCafes_reordered_descending|].
  exact (ranking_of_sorted_input profileA _ sampleCafes_reordered_descending).
Defined.

(** X4.  When no two supplied cafes have the same score, the order in which
    they are supplied does not matter: any reordering of the input gives the
    same ranking. *)
Theorem ranking_ignores_input_order (q : QuizResponse.t)
    (cafes cafes' : list Cafe.t) :
  NoDup (map (calculateFallbackScore q) cafes) ->
  Permutation cafes cafes' ->
  Recombee.getFallbackRecommendations q cafes
  = Recombee.getFallbackRecommendations q cafes'.
Proof.
  intros Hnd Hp. rewrite !ranking_of_cafes.
  rewrite (js_sort_permutation_invariant _ _ _ Hnd Hp). reflexivity.
Qed.

Lemma two_cafes_distinct_scores :
  NoDup (map (calculateFallbackScore profileA)
             [plainCafe 1 "Low"; plainCafe 2 "High"]).
Proof.
  vm_compute. repeat (constructor; [simpl; intuition discriminate|]).
  constructor.
Defined.

Lemma ranking_ignores_input_order_witness :
  NoDup (map (calculateFallbackScore profileA)
             [plainCafe 1 "Low"; plainCafe 2 "High"]) /\
  Permutation [plainCafe 1 "Low"; plainCafe 2 "High"]
              [plainCafe 2 "High"; plainCafe 1 "Low"] /\
  Recombee.getFallbackRecommendations profileA
    [plainCafe 1 "Low"; plainCafe 2 "High"]
  = Recombee.getFallbackRecommendations profileA
      [plainCafe 2 "High"; plainCafe 1 "Low"].
Proof.
  assert (Hp : Permutation [plainCafe 1 "Low"; plainCafe 2 "High"]
                           [plainCafe 2 "High"; plainCafe 1 "Low"])
    by apply perm_swap.
  split; [exact two_cafes_distinct_scores|].
  split; [exact Hp|].
  exact (ranking_ignores_input_order profileA _ _
           two_cafes_distinct_scores Hp).
Defined.

(** ** The scorer *)

(** The ambience list contributes its 4 points on top of what the rest of the
    quiz response earns. *)
Lemma score_ambience_part (q : QuizResponse.t) (a : option (list string))
    (c : Cafe.t) :
  calculateFallbackScore (withAmbience q a) c
  = calculateFallbackScore (withAmbience q None) c
    + (if includes a (Cafe.ambience c) then 4 else 0).
Proof.
  destruct q as [budget amb mood pet]. unfold withAmbience.
  cbn [QuizResponse.budget QuizResponse.mood QuizResponse.petFriendly].
  sum_form.
  destruct (mood_tests mood) as [H|[H|[H|[H|H]]]]; decide_mood H;
    cbn [includes]; ring.
Qed.

Lemma includes_app (l extra : list string) (x : string) :
  includes (Some l) x = true -> includes (Some (l ++ extra)) x = true.
Proof.
  unfold includes. rewrite existsb_app. intros ->. reflexivity.
Qed.

(** X5.  Wishing for more ambiences never lowers a score: a quiz response
    without an ambience list scores a cafe like one with an empty list and no
    higher than one with any list, and appending ambiences to the list does
    not lower the score of any cafe. *)
Theorem more_ambiences_never_lower (q : QuizResponse.t)
    (l extra : list string) (c : Cafe.t) :
  calculateFallbackScore (withAmbience q None) c
  = calculateFallbackScore (withAmbience q (Some [])) c /\
  calculateFallbackScore (withAmbience q None) c
  <= calculateFallbackScore (withAmbience q (Some l)) c /\
  calculateFallbackScore (withAmbience q (Some l)) c
  <= calculateFallbackScore (withAmbience q (Some (l ++ extra))) c.
Proof.
  rewrite (score_ambience_part q (Some [])), (score_ambience_part q (Some l)),
    (score_ambience_part q (Some (l ++ extra))).
  split; [cbn [includes existsb]; lia|].
  split.
  - destruct (includes (Some l) (Cafe.ambience c)); lia.
  - destruct (includes (Some l) (Cafe.ambience c)) eqn:E.
    + rewrite (includes_app l extra _ E). lia.
    + destruct (includes (Some (l ++ extra)) (Cafe.ambience c)); lia.
Qed.

(** X6.  Asking for pet-friendly places is worth exactly one point at a
    pet-friendly cafe and nothing elsewhere. *)
Theorem pet_preference_is_one_point (q : QuizResponse.t) (c : Cafe.t) :
  calculateFallbackScore (withPetFriendly q true) c
  = calculateFallbackScore (withPetFriendly q false) c
    + (if Cafe.petFriendly c then 1 else 0).
Proof.
  destruct q as [budget amb mood pet]. unfold withPetFriendly.
  cbn [QuizResponse.budget QuizResponse.mood QuizResponse.ambience].
  sum_form.
  destruct (mood_tests mood) as [H|[H|[H|[H|H]]]]; decide_mood H;
    rewrite andb_true_r, andb_false_r; ring.
Qed.

(** X7.  What a cafe can score at most depends on the mood: 16 for study, 18
    for work, 16 for date, 14 for hangout, and 10 for any other mood. *)
Theorem score_bound_by_mood (q : QuizResponse.t) (c : Cafe.t) :
  (QuizResponse.mood q = "study"%string -> calculateFallbackScore q c <= 16) /\
  (QuizResponse.mood q = "work"%string -> calculateFallbackScore q c <= 18) /\
  (QuizResponse.mood q = "date"%string -> calculateFallbackScore q c <= 16) /\
  (QuizResponse.mood q = "hangout"%string ->
   calculateFallbackScore q c <= 14) /\
  (QuizResponse.mood q <> "study"%string ->
   QuizResponse.mood q <> "work"%string ->
   QuizResponse.mood q <> "date"%string ->
   QuizResponse.mood q <> "hangout"%string ->
   calculateFallbackScore q c <= 10).
Proof.
  destruct q as [budget amb mood pet]. cbn [QuizResponse.mood].
  repeat split.
  1-4: intros ->; sum_form; cbn [String.eqb Ascii.eqb Bool.eqb];
    cbv beta iota; rewrite ?if_add_l; bound_amounts; lia.
  intros Hs Hw Hd Hh.
  assert (H : mood_flags mood = (false, false, false, false)).
  { unfold mood_flags.
    rewrite (proj2 (String.eqb_neq _ _) Hs), (proj2 (String.eqb_neq _ _) Hw),
      (proj2 (String.eqb_neq _ _) Hd), (proj2 (String.eqb_neq _ _) Hh).
    reflexivity. }
  sum_form. decide_mood H. bound_amounts. lia.
Qed.

Lemma score_bound_by_mood_witness :
  QuizResponse.mood profileA = "study"%string /\
  calculateFallbackScore profileA (plainCafe 1 "High") <= 16.
Proof.
  assert (H : QuizResponse.mood profileA = "study"%string) by reflexivity.
  split; [exact H|].
  exact (proj1 (score_bound_by_mood profileA (plainCafe 1 "High")) H).
Defined.

(** ** Lookups and the routes built on them *)

Lemma getCafe_of_stored (db : Storage.t) (c : Cafe.t) :
  NoDup (map Cafe.id (Storage.cafes db)) ->
  In c (Storage.cafes db) ->
  Storage.getCafe db (Cafe.id c) = Some c.
Proof.
  unfold Storage.getCafe.
  induction (Storage.cafes db) as [|x t IH]; simpl; intros Hnd Hin;
    [contradiction|].
  inversion Hnd as [|? ? Hnotin Hnd']; subst.
  destruct Hin as [->|Hin].
  - rewrite Z.eqb_refl. reflexivity.
  - destruct (Z.eqb_spec (Cafe.id x) (Cafe.id c)) as [Heq|_].
    + exfalso. apply Hnotin. rewrite Heq. apply in_map. exact Hin.
    + exact (IH Hnd' Hin).
Qed.

Lemma getCafe_none (db : Storage.t) (id : Z) :
  Storage.getCafe db id = None <-> ~ In id (map Cafe.id (Storage.cafes db)).
Proof.
  unfold Storage.getCafe. split.
  - intros Hnone Hin. apply in_map_iff in Hin. destruct Hin as [c [Hid Hc]].
    pose proof (find_none _ _ Hnone c Hc) as Hf. simpl in Hf.
    rewrite Hid, Z.eqb_refl in Hf. discriminate.
  - intros Hnotin.
    destruct (find (fun c => Cafe.id c =? id) (Storage.cafes db)) as [c|] eqn:E;
      [|reflexivity].
    apply find_some in E. destruct E as [Hc Hid].
    apply Z.eqb_eq in Hid. exfalso. apply Hnotin.
    rewrite <- Hid. apply in_map. exact Hc.
Qed.

Lemma resolveCafes_stored (db : Storage.t) (ids : list Z) :
  incl (resolveCafes db ids) (Storage.cafes db).
Proof.
  unfold resolveCafes. intros c Hc.
  apply in_flat_map in Hc. destruct Hc as [i [_ Hc]].
  destruct (Storage.getCafe db i) as [c'|] eqn:E; [|contradiction].
  destruct Hc as [<-|[]].
  unfold Storage.getCafe in E. apply find_some in E. exact (proj1 E).
Qed.

Lemma resolveCafes_of_stored (db : Storage.t) (l : list Cafe.t) :
  NoDup (map Cafe.id (Storage.cafes db)) ->
  incl l (Storage.cafes db) ->
  resolveCafes db (map Cafe.id l) = l.
Proof.
  intros Hnd. unfold resolveCafes.
  induction l as [|c t IH]; simpl; intros Hincl; [reflexivity|].
  rewrite (getCafe_of_stored db c Hnd (Hincl c (or_introl eq_refl))).
  simpl. f_equal. apply IH.
  intros x Hx. apply Hincl. right. exact Hx.
Qed.

(** X8.  The cafe route answers with a stored cafe that has the requested
    id, or with 404 when no stored cafe has it; with distinct stored ids,
    asking for the id of a stored cafe returns that very cafe. *)
Theorem cafe_route_lookup (db : Storage.t) (id : Z) :
  match cafeRoute db id with
  | Json c => In c (Storage.cafes db) /\ Cafe.id c = id
  | Status code _ => code = 404 /\ ~ In id (map Cafe.id (Storage.cafes db))
  end /\
  (NoDup (map Cafe.id (Storage.cafes db)) ->
   forall c, In c (Storage.cafes db) -> cafeRoute db (Cafe.id c) = Json c).
Proof.
  unfold cafeRoute. split.
  - destruct (Storage.getCafe db id) as [c|] eqn:E.
    + unfold Storage.getCafe in E. apply find_some in E.
      destruct E as [Hc Hid]. apply Z.eqb_eq in Hid. split; assumption.
    + split; [reflexivity|]. apply getCafe_none. exact E.
  - intros Hnd c Hc. rewrite (getCafe_of_stored db c Hnd Hc). reflexivity.
Qed.

Lemma cafe_route_lookup_witness :
  NoDup (map Cafe.id (Storage.cafes sampleStorage)) /\
  In (plainCafe 3 "Low") (Storage.cafes sampleStorage) /\
  cafeRoute sampleStorage (Cafe.id (plainCafe 3 "Low"))
  = Json (plainCafe 3 "Low").
Proof.
  assert (Hin : In (plainCafe 3 "Low") (Storage.cafes sampleStorage))
    by (simpl; auto).
  split; [exact sampleCafes_ids_distinct|].
  split; [exact Hin|].
  exact (proj2 (cafe_route_lookup sampleStorage 0)
           sampleCafes_ids_distinct _ Hin).
Defined.

(** X9.  The user route answers with a stored user that has the requested
    id, or with 404 when no stored user has it; a lookup by email returns a
    stored user with that email, or nothing when no stored user has it. *)
Theorem user_lookups (db : Storage.t) (id : Z) (email : string) :
  match userRoute db id with
  | Json u => In u (Storage.users db) /\ User.id u = id
  | Status code _ => code = 404 /\ ~ In id (map User.id (Storage.users db))
  end /\
  match getUserByEmail db email with
  | Some u => In u (Storage.users db) /\ User.email u = email
  | None => ~ In email (map User.email (Storage.users db))
  end.
Proof.
  unfold userRoute, Storage.getUser, getUserByEmail. split.
  - destruct (find (fun u => User.id u =? id) (Storage.users db))
      as [u|] eqn:E.
    + apply find_some in E. destruct E as [Hu Hid].
      apply Z.eqb_eq in Hid. split; assumption.
    + split; [reflexivity|]. intros Hin.
      apply in_map_iff in Hin. destruct Hin as [u [Hid Hu]].
      pose proof (find_none _ _ E u Hu) as Hf. simpl in Hf.
      rewrite Hid, Z.eqb_refl in Hf. discriminate.
  - destruct (find (fun u => String.eqb (User.email u) email)
                   (Storage.users db)) as [u|] eqn:E.
    + apply find_some in E. destruct E as [Hu Hid].
      apply String.eqb_eq in Hid. split; assumption.
    + intros Hin.
      apply in_map_iff in Hin. destruct Hin as [u [Hid Hu]].
      pose proof (find_none _ _ E u Hu) as Hf. simpl in Hf.
      rewrite Hid, String.eqb_refl in Hf. discriminate.
Qed.

(** X10.  Resolving ids to cafes returns stored cafes only, drops an id no
    stored cafe has, and, with distinct stored ids, gives back exactly the
    stored cafes whose ids were asked for, in the order asked. *)
Theorem resolve_ids_round_trip (db : Storage.t) :
  (forall ids, incl (resolveCafes db ids) (Storage.cafes db)) /\
  (forall i ids, ~ In i (map Cafe.id (Storage.cafes db)) ->
                 resolveCafes db (i :: ids) = resolveCafes db ids) /\
  (NoDup (map Cafe.id (Storage.cafes db)) ->
   forall l, incl l (Storage.cafes db) ->
             resolveCafes db (map Cafe.id l) = l).
Proof.
  split; [apply resolveCafes_stored|].
  split.
  - intros i ids Hnotin. unfold resolveCafes. simpl.
    rewrite (proj2 (getCafe_none db i) Hnotin). reflexivity.
  - intros Hnd l Hl. apply resolveCafes_of_stored; assumption.
Qed.

Lemma resolve_ids_round_trip_witness :
  NoDup (map Cafe.id (Storage.cafes sampleStorage)) /\
  incl [plainCafe 4 "High"; plainCafe 1 "Low"] (Storage.cafes sampleStorage) /\
  resolveCafes sampleStorage
    (map Cafe.id [plainCafe 4 "High"; plainCafe 1 "Low"])
  = [plainCafe 4 "High"; plainCafe 1 "Low"].
Proof.
  assert (Hincl : incl [plainCafe 4 "High"; plainCafe 1 "Low"]
                       (Storage.cafes sampleStorage)).
  { intros c [<-|[<-|[]]]; simpl; auto. }
  split; [exact sampleCafes_ids_distinct|].
  split; [exact Hincl|].
  exact (proj2 (proj2 (resolve_ids_round_trip sampleStorage))
           sampleCafes_ids_distinct _ Hincl).
Defined.

(** ** The recommendation route *)

Lemma ranked_cafes_stored (q : QuizResponse.t) (cafes : list Cafe.t) :
  incl (firstn 10 (js_sort (byKeyDesc (calculateFallbackScore q)) cafes)) cafes.
Proof.
  intros c Hc. apply firstn_incl in Hc.
  exact (Permutation_in _ (js_sort_perm _ _) Hc).
Qed.

(** X11.  With the personalized variant active, distinct stored ids and a
    known user who has a quiz response, the recommendation route answers with
    full cafe records: at most ten stored cafes, in non-increasing score
    order, whose ids are the fallback ranking of all stored cafes. *)
Theorem recommendations_are_ranked_cafes (s : Recombee.state)
    (db : Storage.t) (userId : Z) (count : option Z)
    (user : User.t) (quiz : QuizResponse.t) :
  NoDup (map Cafe.id (Storage.cafes db)) ->
  Storage.getUser db userId = Some user ->
  User.quizResponses user = Some quiz ->
  exists ranked : list Cafe.t,
    recommendationsRoute Recombee.engine s db userId count = Json ranked /\
    map Cafe.id ranked
    = Recombee.getFallbackRecommendations quiz (Storage.cafes db) /\
    incl ranked (Storage.cafes db) /\
    descending (calculateFallbackScore quiz) ranked /\
    (List.length ranked <= 10)%nat.
Proof.
  intros Hnd Huser Hquiz.
  exists (firstn 10 (js_sort (byKeyDesc (calculateFallbackScore quiz))
                             (Storage.cafes db))).
  split.
  - unfold recommendationsRoute, getRecommendationIds.
    rewrite Huser. unfold recommendedCafeIds.
    cbn [getRecommendations getFallbackRecommendations Recombee.engine
         Recombee.getRecommendations].
    rewrite Hquiz. cbv zeta. unfold Storage.getAllCafes.
    rewrite ranking_of_cafes.
    rewrite (resolveCafes_of_stored db _ Hnd (ranked_cafes_stored quiz _)).
    reflexivity.
  - split; [symmetry; apply ranking_of_cafes|].
    split; [apply ranked_cafes_stored|].
    split; [apply firstn_descending, js_sort_descending|].
    apply firstn_le_length.
Qed.

Lemma recommendations_are_ranked_cafes_witness :
  NoDup (map Cafe.id (Storage.cafes sampleStorage)) /\
  Storage.getUser sampleStorage 7 = Some sampleUser /\
  User.quizResponses sampleUser = Some profileA /\
  exists ranked : list Cafe.t,
    recommendationsRoute Recombee.engine Recombee.new sampleStorage 7 None
    = Json ranked /\
    map Cafe.id ranked
    = Recombee.getFallbackRecommendations profileA
        (Storage.cafes sampleStorage) /\
    incl ranked (Storage.cafes sampleStorage) /\
    descending (calculateFallbackScore profileA) ranked /\
    (List.length ranked <= 10)%nat.
Proof.
  assert (Hu : Storage.getUser sampleStorage 7 = Some sampleUser)
    by reflexivity.
  assert (Hq : User.quizResponses sampleUser = Some profileA) by reflexivity.
  split; [exact sampleCafes_ids_distinct|].
  split; [exact Hu|]. split; [exact Hq|].
  exact (recommendations_are_ranked_cafes Recombee.new sampleStorage 7 None
           sampleUser profileA sampleCafes_ids_distinct Hu Hq).
Defined.

(** X12.  Whatever the engine returns, the recommendation route answers
    either with 404, and then the user is unknown, or with a list of stored
    cafes, and then the user is known: it never answers with a cafe that is
    not stored. *)
Theorem recommendations_route_answers (E : RecommendationEngine)
    (s : engine_state E) (db : Storage.t) (userId : Z) (count : option Z) :
  match recommendationsRoute E s db userId count with
  | Json cafes =>
      Storage.getUser db userId <> None /\ incl cafes (Storage.cafes db)
  | Status code _ => code = 404 /\ Storage.getUser db userId = None
  end.
Proof.
  unfold recommendationsRoute, getRecommendationIds.
  destruct (Storage.getUser db userId) as [user|].
  - split; [discriminate|apply resolveCafes_stored].
  - split; reflexivity.
Qed.

(** X13.  A known user without a quiz response gets the empty list whenever
    the engine has no personalized ids, as is the case for both variants. *)
Theorem no_quiz_no_recommendations (E : RecommendationEngine)
    (s : engine_state E) (db : Storage.t) (userId : Z) (count : option Z)
    (user : User.t) :
  Storage.getUser db userId = Some user ->
  User.quizResponses user = None ->
  getRecommendations E s userId (Some (parseCount count)) = [] ->
  recommendationsRoute E s db userId count = Json [].
Proof.
  intros Huser Hquiz Hnone.
  unfold recommendationsRoute, getRecommendationIds, recommendedCafeIds.
  rewrite Huser, Hnone, Hquiz. reflexivity.
Qed.

Lemma no_quiz_no_recommendations_witness :
  let user := User.mk 9 "n@o.quiz" None in
  let db := Storage.mk [user] sampleCafes in
  Storage.getUser db 9 = Some user /\
  User.quizResponses user = None /\
  getRecommendations Recombee.engine Recombee.new 9 (Some (parseCount None))
  = [] /\
  recommendationsRoute Recombee.engine Recombee.new db 9 None = Json [].
Proof.
  cbv zeta.
  assert (Hu : Storage.getUser (Storage.mk [User.mk 9 "n@o.quiz" None]
                                           sampleCafes) 9
               = Some (User.mk 9 "n@o.quiz" None)) by reflexivity.
  assert (Hq : User.quizResponses (User.mk 9 "n@o.quiz" None) = None)
    by reflexivity.
  assert (Hn : getRecommendations Recombee.engine Recombee.new 9
                 (Some (parseCount None)) = []) by reflexivity.
  split; [exact Hu|]. split; [exact Hq|]. split; [exact Hn|].
  exact (no_quiz_no_recommendations Recombee.engine Recombee.new _ 9 None _
           Hu Hq Hn).
Defined.

(** X14.  Which fallback a known user with a quiz response gets depends on
    the two credentials only: with both present and non-empty the ids are the
    score ranking of all stored cafes, otherwise they are the ids of the
    first five stored cafes. *)
Theorem credentials_select_the_fallback
    (recombeeDbId recombeePrivateToken : option string)
    (s : engine_state
           (createRecommendationEngine recombeeDbId recombeePrivateToken))
    (db : Storage.t) (userId : Z) (count : option Z)
    (user : User.t) (quiz : QuizResponse.t) :
  Storage.getUser db userId = Some user ->
  User.quizResponses user = Some quiz ->
  getRecommendationIds
    (createRecommendationEngine recombeeDbId recombeePrivateToken)
    s db userId count
  = Json (if truthy recombeeDbId && truthy recombeePrivateToken
          then Recombee.getFallbackRecommendations quiz (Storage.cafes db)
          else map Cafe.id (firstn 5 (Storage.cafes db))).
Proof.
  intros Huser Hquiz. revert s. unfold createRecommendationEngine.
  destruct (truthy recombeeDbId && truthy recombeePrivateToken); intros s;
    unfold getRecommendationIds, recommendedCafeIds; rewrite Huser;
    cbn [getRecommendations getFallbackRecommendations Recombee.engine
         Algolia.engine Recombee.getRecommendations
         Algolia.getRecommendations];
    rewrite Hquiz; reflexivity.
Qed.

Lemma credentials_select_the_fallback_witness :
  Storage.getUser sampleStorage 7 = Some sampleUser /\
  User.quizResponses sampleUser = Some profileA /\
  getRecommendationIds (createRecommendationEngine (Some "db"%string) None)
    Algolia.new sampleStorage 7 None
  = Json [1; 2; 3; 4].
Proof.
  assert (Hu : Storage.getUser sampleStorage 7 = Some sampleUser)
    by reflexivity.
  assert (Hq : User.quizResponses sampleUser = Some profileA) by reflexivity.
  split; [exact Hu|]. split; [exact Hq|].
  exact (credentials_select_the_fallback (Some "db"%string) None Algolia.new
           sampleStorage 7 None sampleUser profileA Hu Hq).
Defined.

(** ** The proximity query *)


(** ** The engines as state machines *)

Lemma recombee_call (c : EngineCall) (s : Recombee.state) :
  Recombee.console (apply_call Recombee.engine s c)
  = Recombee.console s ++ [logged c] /\
  Recombee.isInitialized (apply_call Recombee.engine s c)
  = Recombee.isInitialized s || isInitializeCall c.
Proof.
  destruct c; simpl; rewrite ?orb_false_r, ?orb_true_r; split; reflexivity.
Qed.

Lemma recombee_calls_from (calls : list EngineCall) (s : Recombee.state) :
  let s' := fold_left (apply_call Recombee.engine) calls s in
  Recombee.console s' = Recombee.console s ++ map logged calls /\
  Recombee.isInitialized s'
  = Recombee.isInitialized s || existsb isInitializeCall calls.
Proof.
  cbv zeta. revert s.
  induction calls as [|c t IH]; intros s; cbn [fold_left map existsb].
  - rewrite app_nil_r, orb_false_r. split; reflexivity.
  - destruct (IH (apply_call Recombee.engine s c)) as [Hc Hi].
    destruct (recombee_call c s) as [Hc1 Hi1].
    rewrite Hc, Hi, Hc1, Hi1, <- app_assoc, orb_assoc.
    split; reflexivity.
Qed.

(** X16.  The personalized variant prints one line per call, in call order,
    and is initialized exactly when [initialize] was among the calls. *)
Theorem recombee_state_after_calls (calls : list EngineCall) :
  Recombee.console (run_calls Recombee.engine calls) = map logged calls /\
  Recombee.isInitialized (run_calls Recombee.engine calls)
  = existsb isInitializeCall calls.
Proof.
  exact (recombee_calls_from calls Recombee.new).
Qed.

Lemma algolia_calls_from (calls : list EngineCall) (s : Algolia.state) :
  Algolia.console (fold_left (apply_call Algolia.engine) calls s)
  = Algolia.console s
    ++ map (fun _ => LogMessage "Algolia recommendation engine initialized")
           (filter isInitializeCall calls).
Proof.
  revert s. induction calls as [|c t IH]; intros s; simpl.
  - rewrite app_nil_r. reflexivity.
  - rewrite IH. destruct c; simpl; [|reflexivity..].
    rewrite <- app_assoc. reflexivity.
Qed.

(** X17.  The rule-based variant ignores ingestion: registering users, cafes
    and interactions leaves its state as it was, so after any calls its state
    holds one line per [initialize] and nothing else. *)
Theorem algolia_state_after_calls (calls : list EngineCall) :
  run_calls Algolia.engine calls
  = Algolia.mkState
      (map (fun _ => LogMessage "Algolia recommendation engine initialized")
           (filter isInitializeCall calls)).
Proof.
  pose proof (algolia_calls_from calls Algolia.new) as H.
  unfold run_calls. cbn [engine_new Algolia.engine].
  destruct (fold_left (apply_call Algolia.engine) calls Algolia.new) as [l].
  simpl in H. rewrite H. reflexivity.
Qed.

Lemma addCafe_fold_as_calls (E : RecommendationEngine)
    (cafes : list Cafe.t) (s : engine_state E) :
  fold_left (fun s cafe => addCafe E cafe s) cafes s
  = fold_left (apply_call E) (map CallAddCafe cafes) s.
Proof.
  revert s. induction cafes as [|c t IH]; intros s; simpl; [reflexivity|].
  apply IH.
Qed.

Lemma no_initialize_among_addCafe (cafes : list Cafe.t) :
  filter isInitializeCall (map CallAddCafe cafes) = [].
Proof.
  induction cafes as [|c t IH]; simpl; [reflexivity|exact IH].
Qed.

(** X18.  Start-up leaves the personalized variant initialized, having
    printed its greeting and then the name of every stored cafe once, in
    storage order; the rule-based variant keeps no trace of the cafes. *)
Theorem startup_registers_every_cafe (db : Storage.t) :
  Recombee.isInitialized (startup Recombee.engine db) = true /\
  Recombee.console (startup Recombee.engine db)
  = LogMessage "Smart recommendation engine initialized"
    :: map (fun cafe => LogCafeAdded (Cafe.name cafe)) (Storage.cafes db) /\
  startup Algolia.engine db = Algolia.initialize Algolia.new.
Proof.
  unfold startup. cbv zeta. rewrite !addCafe_fold_as_calls.
  unfold Storage.getAllCafes.
  destruct (recombee_calls_from (map CallAddCafe (Storage.cafes db))
              (initialize Recombee.engine (engine_new Recombee.engine)))
    as [Hc Hi].
  cbv zeta in Hc, Hi.
  split; [rewrite Hi; reflexivity|].
  split.
  - rewrite Hc, map_map. reflexivity.
  - pose proof (algolia_calls_from (map CallAddCafe (Storage.cafes db))
                  (initialize Algolia.engine (engine_new Algolia.engine))) as H.
    destruct (fold_left (apply_call Algolia.engine)
                (map CallAddCafe (Storage.cafes db))
                (initialize Algolia.engine (engine_new Algolia.engine)))
      as [l].
    simpl in H. rewrite H.
    rewrite no_initialize_among_addCafe. reflexivity.
Qed.

(** ** Saved cafes *)

Lemma filter_pair_row (row : UserSavedCafe.t) (userId : Z)
    (l : list Cafe.t) :
  map snd
      (filter (fun joined : UserSavedCafe.t * Cafe.t =>
                 UserSavedCafe.userId (fst joined) =? userId)
              (map (pair row) l))
  = if UserSavedCafe.userId row =? userId then l else [].
Proof.
  induction l as [|c t IH]; simpl.
  - destruct (UserSavedCafe.userId row =? userId); reflexivity.
  - destruct (UserSavedCafe.userId row =? userId); simpl;
      [rewrite IH; reflexivity|exact IH].
Qed.

Lemma savedCafeRows_app (t1 t2 : list UserSavedCafe.t)
    (cafes : list Cafe.t) (userId : Z) :
  SavedCafes.savedCafeRows (t1 ++ t2) cafes userId
  = SavedCafes.savedCafeRows t1 cafes userId
    ++ SavedCafes.savedCafeRows t2 cafes userId.
Proof.
  unfold SavedCafes.savedCafeRows, SavedCafes.innerJoin.
  rewrite flat_map_app, filter_app, map_app. reflexivity.
Qed.

Lemma savedCafeRows_row (row : UserSavedCafe.t)
    (cafes : list Cafe.t) (userId : Z) :
  SavedCafes.savedCafeRows [row] cafes userId
  = if UserSavedCafe.userId row =? userId
    then filter (fun cafe => UserSavedCafe.cafeId row =? Cafe.id cafe) cafes
    else [].
Proof.
  unfold SavedCafes.savedCafeRows, SavedCafes.innerJoin. simpl.
  rewrite app_nil_r. apply filter_pair_row.
Qed.

Lemma savedCafeRows_cons (row : UserSavedCafe.t)
    (table : list UserSavedCafe.t) (cafes : list Cafe.t) (userId : Z) :
  SavedCafes.savedCafeRows (row :: table) cafes userId
  = (if UserSavedCafe.userId row =? userId
     then filter (fun cafe => UserSavedCafe.cafeId row =? Cafe.id cafe) cafes
     else [])
    ++ SavedCafes.savedCafeRows table cafes userId.
Proof.
  change (row :: table) with ([row] ++ table).
  rewrite savedCafeRows_app, savedCafeRows_row. reflexivity.
Qed.

Lemma filter_other_id (c k : Z) (cafes : list Cafe.t) :
  filter (fun cafe => negb (Cafe.id cafe =? c))
         (filter (fun cafe => k =? Cafe.id cafe) cafes)
  = if k =? c then [] else filter (fun cafe => k =? Cafe.id cafe) cafes.
Proof.
  induction cafes as [|x t IH]; simpl.
  - destruct (k =? c); reflexivity.
  - destruct (Z.eqb_spec k (Cafe.id x)) as [Hk|Hk]; simpl.
    + rewrite IH. subst k.
      destruct (Z.eqb_spec (Cafe.id x) c); simpl; reflexivity.
    + exact IH.
Qed.

Lemma savedCafeRows_unsave (table : list UserSavedCafe.t)
    (cafes : list Cafe.t) (userId cafeId : Z) :
  SavedCafes.savedCafeRows
    (SavedCafes.unsaveCafe table userId cafeId) cafes userId
  = filter (fun cafe => negb (Cafe.id cafe =? cafeId))
           (SavedCafes.savedCafeRows table cafes userId).
Proof.
  induction table as [|row t IH]; [reflexivity|].
  rewrite savedCafeRows_cons, filter_app, <- IH.
  unfold SavedCafes.unsaveCafe at 1. cbn [filter].
  fold (SavedCafes.unsaveCafe t userId cafeId).
  destruct (Z.eqb_spec (UserSavedCafe.userId row) userId) as [Hu|Hu];
    cbn [andb negb].
  - rewrite filter_other_id.
    destruct (UserSavedCafe.cafeId row =? cafeId); cbn [negb].
    + reflexivity.
    + rewrite savedCafeRows_cons.
      rewrite (proj2 (Z.eqb_eq _ _) Hu). reflexivity.
  - rewrite savedCafeRows_cons.
    rewrite (proj2 (Z.eqb_neq _ _) Hu). reflexivity.
Qed.

Lemma savedCafeRows_unsave_other (table : list UserSavedCafe.t)
    (cafes : list Cafe.t) (userId cafeId otherId : Z) :
  otherId <> userId ->
  SavedCafes.savedCafeRows
    (SavedCafes.unsaveCafe table userId cafeId) cafes otherId
  = SavedCafes.savedCafeRows table cafes otherId.
Proof.
  intros Hother.
  induction table as [|row t IH]; [reflexivity|].
  unfold SavedCafes.unsaveCafe. cbn [filter].
  fold (SavedCafes.unsaveCafe t userId cafeId).
  destruct (Z.eqb_spec (UserSavedCafe.userId row) userId) as [Hu|Hu];
    cbn [andb negb].
  - destruct (UserSavedCafe.cafeId row =? cafeId); cbn [negb].
    + rewrite IH, savedCafeRows_cons.
      rewrite (proj2 (Z.eqb_neq _ _)) by congruence. reflexivity.
    + rewrite !savedCafeRows_cons, IH. reflexivity.
  - rewrite !savedCafeRows_cons, IH. reflexivity.
Qed.

Lemma savedCafeRows_save (table : list UserSavedCafe.t)
    (cafes : list Cafe.t) (userId cafeId otherId : Z) :
  SavedCafes.savedCafeRows
    (fst (SavedCafes.saveCafe table userId cafeId)) cafes otherId
  = SavedCafes.savedCafeRows table cafes otherId
    ++ (if userId =? otherId
        then filter (fun cafe => cafeId =? Cafe.id cafe) cafes
        else []).
Proof.
  unfold SavedCafes.saveCafe. cbn [fst].
  rewrite savedCafeRows_app, savedCafeRows_row. reflexivity.
Qed.

Lemma filter_permutation {A : Type} (f : A -> bool) (l1 l2 : list A) :
  Permutation l1 l2 -> Permutation (filter f l1) (filter f l2).
Proof.
  induction 1 as [|x l1 l2 _ IH|x y l|l1 l2 l3 _ IH1 _ IH2]; simpl.
  - constructor.
  - destruct (f x); [apply perm_skip|]; exact IH.
  - destruct (f x), (f y); try apply Permutation_refl. apply perm_swap.
  - exact (perm_trans IH1 IH2).
Qed.

Lemma no_cafe_with_id (cafeId : Z) (cafes : list Cafe.t) :
  ~ In cafeId (map Cafe.id cafes) ->
  filter (fun cafe => cafeId =? Cafe.id cafe) cafes = [].
Proof.
  intros Hnotin.
  destruct (filter (fun cafe => cafeId =? Cafe.id cafe) cafes)
    as [|x l] eqn:E; [reflexivity|].
  exfalso. apply Hnotin.
  assert (Hx : In x (filter (fun cafe => cafeId =? Cafe.id cafe) cafes))
    by (rewrite E; left; reflexivity).
  apply filter_In in Hx. destruct Hx as [Hx Hid].
  apply Z.eqb_eq in Hid. rewrite Hid. apply in_map. exact Hx.
Qed.

(** X19.  Unsaving a cafe for a user removes from that user's saved cafes
    exactly the cafes with that id, and leaves every other user's saved cafes
    as they were; the order in which the query returns them is the
    database's. *)
Theorem unsave_removes_the_cafe (table : list UserSavedCafe.t)
    (cafes : list Cafe.t) (userId cafeId : Z) :
  (forall before after,
      SavedCafes.getUserSavedCafes table cafes userId before ->
      SavedCafes.getUserSavedCafes
        (SavedCafes.unsaveCafe table userId cafeId) cafes userId after ->
      Permutation after
        (filter (fun cafe => negb (Cafe.id cafe =? cafeId)) before)) /\
  (forall otherId before after,
      otherId <> userId ->
      SavedCafes.getUserSavedCafes table cafes otherId before ->
      SavedCafes.getUserSavedCafes
        (SavedCafes.unsaveCafe table userId cafeId) cafes otherId after ->
      Permutation after before).
Proof.
  unfold SavedCafes.getUserSavedCafes. split.
  - intros before after Hb Ha.
    rewrite savedCafeRows_unsave in Ha.
    eapply perm_trans; [apply Permutation_sym; exact Ha|].
    apply filter_permutation. exact Hb.
  - intros otherId before after Hother Hb Ha.
    rewrite (savedCafeRows_unsave_other _ _ _ _ _ Hother) in Ha.
    exact (perm_trans (Permutation_sym Ha) Hb).
Qed.

Lemma unsave_removes_the_cafe_witness :
  let table := [UserSavedCafe.mk 7 2; UserSavedCafe.mk 7 4] in
  SavedCafes.getUserSavedCafes table sampleCafes 7
    [plainCafe 4 "High"; plainCafe 2 "High"] /\
  SavedCafes.getUserSavedCafes (SavedCafes.unsaveCafe table 7 2)
    sampleCafes 7 [plainCafe 4 "High"] /\
  Permutation [plainCafe 4 "High"]
    (filter (fun cafe => negb (Cafe.id cafe =? 2))
            [plainCafe 4 "High"; plainCafe 2 "High"]).
Proof.
  cbv zeta.
  assert (Hb : SavedCafes.getUserSavedCafes
                 [UserSavedCafe.mk 7 2; UserSavedCafe.mk 7 4] sampleCafes 7
                 [plainCafe 4 "High"; plainCafe 2 "High"])
    by apply perm_swap.
  assert (Ha : SavedCafes.getUserSavedCafes
                 (SavedCafes.unsaveCafe
                    [UserSavedCafe.mk 7 2; UserSavedCafe.mk 7 4] 7 2)
                 sampleCafes 7 [plainCafe 4 "High"])
    by apply Permutation_refl.
  split; [exact Hb|]. split; [exact Ha|].
  exact (proj1 (unsave_removes_the_cafe _ sampleCafes 7 2) _ _ Hb Ha).
Defined.

(** X20.  Saving a cafe for a user adds to that user's saved cafes the
    stored cafes with that id and nothing else: a stored cafe then is among
    them, an id no stored cafe has adds nothing, and other users' saved cafes
    are as they were; the order in which the query returns them is the
    database's. *)
Theorem save_adds_the_cafe (table : list UserSavedCafe.t)
    (cafes : list Cafe.t) (userId cafeId : Z) :
  let table' := fst (SavedCafes.saveCafe table userId cafeId) in
  (forall before after,
      SavedCafes.getUserSavedCafes table cafes userId before ->
      SavedCafes.getUserSavedCafes table' cafes userId after ->
      Permutation after
        (before ++ filter (fun cafe => cafeId =? Cafe.id cafe) cafes)) /\
  (forall cafe after,
      In cafe cafes -> Cafe.id cafe = cafeId ->
      SavedCafes.getUserSavedCafes table' cafes userId after ->
      In cafe after) /\
  (~ In cafeId (map Cafe.id cafes) ->
   forall before after,
     SavedCafes.getUserSavedCafes table cafes userId before ->
     SavedCafes.getUserSavedCafes table' cafes userId after ->
     Permutation after before) /\
  (forall otherId before after,
      otherId <> userId ->
      SavedCafes.getUserSavedCafes table cafes otherId before ->
      SavedCafes.getUserSavedCafes table' cafes otherId after ->
      Permutation after before).
Proof.
  cbv zeta. unfold SavedCafes.getUserSavedCafes.
  split; [|split; [|split]].
  - intros before after Hb Ha.
    rewrite savedCafeRows_save, Z.eqb_refl in Ha.
    eapply perm_trans; [apply Permutation_sym; exact Ha|].
    apply Permutation_app_tail. exact Hb.
  - intros cafe after Hin Hid Ha.
    rewrite savedCafeRows_save, Z.eqb_refl in Ha.
    apply (Permutation_in _ Ha). apply in_or_app. right.
    apply filter_In. split; [exact Hin|].
    apply Z.eqb_eq. symmetry. exact Hid.
  - intros Hnotin before after Hb Ha.
    rewrite savedCafeRows_save, Z.eqb_refl in Ha.
    rewrite (no_cafe_with_id _ _ Hnotin), app_nil_r in Ha.
    exact (perm_trans (Permutation_sym Ha) Hb).
  - intros otherId before after Hother Hb Ha.
    rewrite savedCafeRows_save in Ha.
    rewrite (proj2 (Z.eqb_neq _ _)), app_nil_r in Ha by congruence.
    exact (perm_trans (Permutation_sym Ha) Hb).
Qed.

Lemma save_adds_the_cafe_witness :
  In (plainCafe 2 "High") sampleCafes /\
  Cafe.id (plainCafe 2 "High") = 2 /\
  SavedCafes.getUserSavedCafes
    (fst (SavedCafes.saveCafe [UserSavedCafe.mk 7 4] 7 2)) sampleCafes 7
    [plainCafe 2 "High"; plainCafe 4 "High"] /\
  In (plainCafe 2 "High") [plainCafe 2 "High"; plainCafe 4 "High"].
Proof.
  assert (Hin : In (plainCafe 2 "High") sampleCafes) by (simpl; auto).
  assert (Hid : Cafe.id (plainCafe 2 "High") = 2) by reflexivity.
  assert (Ha : SavedCafes.getUserSavedCafes
                 (fst (SavedCafes.saveCafe [UserSavedCafe.mk 7 4] 7 2))
                 sampleCafes 7 [plainCafe 2 "High"; plainCafe 4 "High"])
    by apply perm_swap.
  split; [exact Hin|]. split; [exact Hid|]. split; [exact Ha|].
  exact (proj1 (proj2 (save_adds_the_cafe [UserSavedCafe.mk 7 4]
                         sampleCafes 7 2)) _ _ Hin Hid Ha).
Defined.

(** X21.  Unsaving deletes every row of the user and cafe, also one just
    saved, and no other row; unsaving twice is unsaving once. *)
Theorem unsave_deletes_the_pair (table : list UserSavedCafe.t)
    (userId cafeId : Z) :
  (forall row,
      In row (SavedCafes.unsaveCafe table userId cafeId) <->
      In row table /\
      ~ (UserSavedCafe.userId row = userId /\
         UserSavedCafe.cafeId row = cafeId)) /\
  SavedCafes.unsaveCafe
    (fst (SavedCafes.saveCafe table userId cafeId)) userId cafeId
  = SavedCafes.unsaveCafe table userId cafeId /\
  SavedCafes.unsaveCafe
    (SavedCafes.unsaveCafe table userId cafeId) userId cafeId
  = SavedCafes.unsaveCafe table userId cafeId.
Proof.
  split; [|split].
  - intros row. unfold SavedCafes.unsaveCafe. rewrite filter_In.
    rewrite negb_true_iff, andb_false_iff, !Z.eqb_neq.
    split; intros [Hin H]; (split; [exact Hin|]).
    + intros [Hu Hc]. destruct H; contradiction.
    + destruct (Z.eq_dec (UserSavedCafe.userId row) userId) as [Hu|Hu];
        [|left; exact Hu].
      right. intros Hc. apply H. split; assumption.
  - unfold SavedCafes.saveCafe, SavedCafes.unsaveCafe. cbn [fst].
    rewrite filter_app. cbn [filter UserSavedCafe.userId UserSavedCafe.cafeId].
    rewrite !Z.eqb_refl. cbn [andb negb]. apply app_nil_r.
  - unfold SavedCafes.unsaveCafe.
    induction table as [|row t IH]; [reflexivity|]. cbn [filter].
    destruct (negb ((UserSavedCafe.userId row =? userId) &&
                    (UserSavedCafe.cafeId row =? cafeId))) eqn:E.
    + cbn [filter]. rewrite E, IH. reflexivity.
    + exact IH.
Qed.
